(** * Fixed-width to delimited transcoding: a model of [delimited_writer]

  The development embeds the two classes of the package,
  [EncodingProperties] (encoding_properties.py) and [DelimitedFileWriter]
  (delimited_writer.py), the mock generator and writer of
  [MockFixedWidthFileWriter] (fixed_width_writer.py) and the line-ending
  checks of the test helper (test_delimited_writer.py), and checks the
  properties stated for them.

  Modelling boundary.  Files are modelled as the text Python reads from or
  writes to them: a [string] of 8-bit character codes of which only the
  ASCII ones (space, line feed, carriage return, comma, double quote,
  digits, sign, underscore) are ever interpreted.  The byte-level codecs
  behind [open(..., encoding=...)] are not modelled; the encoding names
  are recorded in the trace of [open] calls.  The spec document is the
  value [json.load] returns, typed as the package documents it. *)

From Stdlib Require Import ZArith Ascii String List Lia.
From stdpp Require Import base list strings pretty gmap.

Local Open Scope Z_scope.

(** ** Python builtins used by the package *)

Module Py.

Definition LF : ascii := "010"%char.
Definition CR : ascii := "013"%char.
Definition SPACE : ascii := " "%char.
Definition COMMA : ascii := ","%char.
Definition DQUOTE : ascii := "034"%char.

(** The one-character strings written [\n], [\r] and [\r\n] in Python. *)
Definition nl : string := String LF "".
Definition cr : string := String CR "".
Definition crnl : string := String CR (String LF "").

(** [len(s)] *)
Definition len (s : string) : Z := Z.of_nat (String.length s).

(** [s.replace(old, "")] for a one-character [old]: every occurrence goes. *)
Fixpoint replace_char (old : ascii) (s : string) : string :=
  match s with
  | EmptyString => EmptyString
  | String c rest =>
      if decide (c = old) then replace_char old rest
      else String c (replace_char old rest)
  end.

Fixpoint str_take (n : nat) (s : string) : string :=
  match n, s with
  | S n', String c rest => String c (str_take n' rest)
  | _, _ => EmptyString
  end.

Fixpoint str_drop (n : nat) (s : string) : string :=
  match n, s with
  | S n', String _ rest => str_drop n' rest
  | _, _ => s
  end.

(** How a slice bound is brought into [0, n]: a negative bound counts
    from the end, and both ends saturate. *)
Definition clamp_index (i n : Z) : Z :=
  if i <? 0 then Z.max (i + n) 0 else Z.min i n.

(** [s[a:b]] *)
Definition slice (s : string) (a b : Z) : string :=
  let n := len s in
  let lo := clamp_index a n in
  let hi := clamp_index b n in
  str_take (Z.to_nat (hi - lo)) (str_drop (Z.to_nat lo) s).

(** [sum(l)] on a list of integers. *)
Definition sum (l : list Z) : Z := foldr Z.add 0 l.

(** [" " * n] *)
Fixpoint spaces (n : nat) : string :=
  match n with
  | O => EmptyString
  | S n' => String SPACE (spaces n')
  end.

(** [s.ljust(width)] and [s.rjust(width)]: pad with spaces up to [width],
    leaving longer strings alone. *)
Definition ljust (s : string) (width : Z) : string :=
  s +:+ spaces (Z.to_nat (width - len s)).
Definition rjust (s : string) (width : Z) : string :=
  spaces (Z.to_nat (width - len s)) +:+ s.

(** [c in s] for a character. *)
Fixpoint contains (c : ascii) (s : string) : bool :=
  match s with
  | EmptyString => false
  | String c' rest => bool_decide (c' = c) || contains c rest
  end.

(** [sep.join(l)] *)
Fixpoint join (sep : string) (l : list string) : string :=
  match l with
  | [] => EmptyString
  | [x] => x
  | x :: rest => x +:+ sep +:+ join sep rest
  end.

End Py.

(** ** Exceptions *)

(** The exceptions the package lets escape.  Every exception the package
    raises itself is a [ValueError] carrying a message; [IntLiteralError] is
    the [ValueError] that [int()] raises on a string that is no integer
    literal (its message quotes [repr] of the literal, which is kept
    symbolic here); [OSError] is [open()] failing on a path and
    [JSONDecodeError] is [json.load] failing. *)
Inductive exn : Type :=
| OSError (path : string)
| JSONDecodeError
| IntLiteralError (literal : string)
| ValueError (msg : string).

Module PyInt.

(** [int(s)] for a string: optional surrounding ASCII whitespace, an
    optional sign, then decimal digits in which single underscores may
    separate digits. *)

Fixpoint lstrip (s : string) : string :=
  match s with
  | EmptyString => EmptyString
  | String c rest => if Ascii.is_space c then lstrip rest else s
  end.

Definition strip (s : string) : string :=
  String.rev (lstrip (String.rev (lstrip s))).

Definition digit (c : ascii) : option Z := Z.of_nat <$> Ascii.is_nat c.

Fixpoint digits (acc : Z) (after_digit : bool) (s : string) : option Z :=
  match s with
  | EmptyString => if after_digit then Some acc else None
  | String c rest =>
      match digit c with
      | Some d => digits (10 * acc + d) true rest
      | None =>
          if bool_decide (c = "_"%char) && after_digit
          then digits acc false rest
          else None
      end
  end.

Definition of_string (s : string) : option Z :=
  match strip s with
  | String "+" rest => digits 0 false rest
  | String "-" rest => Z.opp <$> digits 0 false rest
  | body => digits 0 false body
  end.

End PyInt.

(** ** The spec document

    What [json.load] returns for [spec.json]: an object with the five keys
    the package reads, each holding a value of the type the package expects
    there.  [Offsets] holds integers or strings, both of which [int()]
    accepts.  Documents that lack a key or hold a value of another type
    (where subscripting, [len] or [int] would raise [KeyError] or
    [TypeError]) are not covered. *)

Inductive pyval : Type :=
| PInt (z : Z)
| PStr (s : string).

Record spec_document : Type := {
  ColumnNames : list string;
  Offsets : list pyval;
  IncludeHeader : string;
  FixedWidthEncoding : string;
  DelimitedEncoding : string
}.

(** [int(v)] *)
Definition py_int (v : pyval) : exn + Z :=
  match v with
  | PInt z => inr z
  | PStr s =>
      match PyInt.of_string s with
      | Some z => inr z
      | None => inl (IntLiteralError s)
      end
  end.

(** [list(map(int, l))]: the first element that is no integer raises. *)
Fixpoint map_int (l : list pyval) : exn + list Z :=
  match l with
  | [] => inr []
  | v :: rest =>
      match py_int v with
      | inl e => inl e
      | inr z =>
          match map_int rest with
          | inl e => inl e
          | inr zs => inr (z :: zs)
          end
      end
  end.

(** What the host supplies: [os.linesep] and the JSON parser behind
    [json.load] ([None] when the text is no JSON document of the expected
    shape). *)
Record runtime : Type := {
  os_linesep : string;
  json_loads : string -> option spec_document
}.

(** ** Program state

    The attributes of an [EncodingProperties] object, in the order
    [__init__] assigns them. *)
Record EncodingProperties : Type := {
  spec_filename : string;
  fixed_width_filename : string;
  delimited_filename : string;
  delimited_newline : option string;
  column_names : list string;
  offsets : list Z;
  fixed_width_encoding : string;
  delimited_encoding : string;
  include_header : bool
}.

(** Calls that reach the file system: [open(path, mode, encoding=, newline=)]
    and [write] on an open file. *)
Inductive event : Type :=
| EOpen (path mode : string) (encoding newline : option string)
| EWrite (path data : string).

(** The state the methods run in: the one [EncodingProperties] object of a
    run (the object under construction in [__init__], later the object a
    [DelimitedFileWriter] keeps in [self.encoding_props]), the text of every
    file that can be opened for reading, the paths that cannot be opened
    for writing, and the trace of file-system calls, oldest first. *)
Record state : Type := {
  encoding_props : EncodingProperties;
  files : gmap string string;
  unwritable : gset string;
  log : list event
}.

(** Computations that read and update the state and either return or
    raise. *)
Definition M (A : Type) : Type := state -> state * (exn + A).

Definition ret {A} (a : A) : M A := fun st => (st, inr a).

Definition raise {A} (e : exn) : M A := fun st => (st, inl e).

Definition bind {A B} (m : M A) (k : A -> M B) : M B :=
  fun st =>
    match m st with
    | (st', inl e) => (st', inl e)
    | (st', inr a) => k a st'
    end.

Notation "'let*' x := m 'in' k" := (bind m (fun x => k))
  (at level 10, x name, m at level 100, k at level 200).
Notation "m ;;; k" := (bind m (fun _ => k))
  (at level 100, k at level 200, right associativity).

(** A pure computation that may raise. *)
Definition lift {A} (r : exn + A) : M A := fun st => (st, r).

Definition with_self (f : EncodingProperties -> EncodingProperties) (st : state) : state :=
  {| encoding_props := f (encoding_props st); files := files st;
     unwritable := unwritable st; log := log st |}.

Definition logged (e : event) (st : state) : state :=
  {| encoding_props := encoding_props st; files := files st;
     unwritable := unwritable st; log := log st ++ [e] |}.

Definition with_file (path text : string) (st : state) : state :=
  {| encoding_props := encoding_props st; files := <[path := text]> (files st);
     unwritable := unwritable st; log := log st |}.

Definition get_self : M EncodingProperties :=
  fun st => (st, inr (encoding_props st)).

Definition update_self (f : EncodingProperties -> EncodingProperties) : M unit :=
  fun st => (with_self f st, inr tt).

Definition emit (e : event) : M unit :=
  fun st => (logged e st, inr tt).

Definition set_file (path text : string) : M unit :=
  fun st => (with_file path text st, inr tt).

(** *** Text files *)

(** Reading with [newline=None]: [\r\n] and a lone [\r] both come out as
    [\n].  [after_cr] tells that the previous character was a [\r]. *)
Fixpoint universal_newlines (after_cr : bool) (s : string) : string :=
  match s with
  | EmptyString => EmptyString
  | String c rest =>
      if decide (c = Py.CR) then String Py.LF (universal_newlines true rest)
      else if decide (c = Py.LF) then
        if after_cr then universal_newlines false rest
        else String Py.LF (universal_newlines false rest)
      else String c (universal_newlines false rest)
  end.

(** Iterating over a text file: each line keeps its closing [\n]; a last
    line without one is yielded as it is.  [cur] is the line read so far. *)
Fixpoint iter_lines (cur : string) (s : string) : list string :=
  match s with
  | EmptyString => if decide (cur = EmptyString) then [] else [cur]
  | String c rest =>
      if decide (c = Py.LF) then (cur +:+ Py.nl) :: iter_lines EmptyString rest
      else iter_lines (cur +:+ String c EmptyString) rest
  end.

(** [open(path, "r", encoding=encoding, newline=None)] and reading it all:
    the text with newlines translated. *)
Definition open_read (path : string) (encoding : option string) : M string :=
  emit (EOpen path "r" encoding None);;;
  fun st =>
    match files st !! path with
    | None => (st, inl (OSError path))
    | Some text => (st, inr (universal_newlines false text))
    end.

(** [open(path, "w", encoding=encoding, newline="")]: the file is created
    or truncated. *)
Definition open_write (path : string) (encoding : option string) : M unit :=
  emit (EOpen path "w" encoding (Some EmptyString));;;
  fun st =>
    if decide (path ∈ unwritable st) then (st, inl (OSError path))
    else set_file path EmptyString st.

(** [f.write(data)] on a file opened with [newline=""]: the characters are
    appended as they are. *)
Definition write (path data : string) : M unit :=
  emit (EWrite path data);;;
  fun st => set_file path (default EmptyString (files st !! path) +:+ data) st.

(** ** The [csv] writer

    [csv.writer(f, delimiter=",", lineterminator=...)] with the other
    settings of the default dialect: double quote as quote character,
    doubled when it occurs in a field, minimal quoting. *)

Module Csv.

(** Minimal quoting: a field is quoted when it holds the delimiter, the
    quote character or a character of the line terminator. *)
Definition special (lineterminator : string) (c : ascii) : bool :=
  bool_decide (c = Py.COMMA) || bool_decide (c = Py.DQUOTE)
  || Py.contains c lineterminator.

Fixpoint needs_quotes (lineterminator : string) (field : string) : bool :=
  match field with
  | EmptyString => false
  | String c rest => special lineterminator c || needs_quotes lineterminator rest
  end.

Fixpoint double_quotes (field : string) : string :=
  match field with
  | EmptyString => EmptyString
  | String c rest =>
      if decide (c = Py.DQUOTE)
      then String Py.DQUOTE (String Py.DQUOTE (double_quotes rest))
      else String c (double_quotes rest)
  end.

Definition quoted (field : string) : string :=
  String Py.DQUOTE (double_quotes field +:+ String Py.DQUOTE EmptyString).

Definition render_field (lineterminator : string) (field : string) : string :=
  if needs_quotes lineterminator field then quoted field else field.

(** The record without its terminator.  A row of one empty field is
    written as a pair of quotes, to tell it from a row of no field. *)
Definition record (lineterminator : string) (row : list string) : string :=
  let rec := Py.join (String Py.COMMA EmptyString)
               (render_field lineterminator <$> row) in
  if bool_decide (row ≠ []) && bool_decide (rec = EmptyString)
  then quoted EmptyString
  else rec.

(** The text one [writerow(row)] hands to [f.write]. *)
Definition row_text (lineterminator : string) (row : list string) : string :=
  record lineterminator row +:+ lineterminator.

End Csv.

(** [writer.writerow(row)] on the file at [path]. *)
Definition writerow (path lineterminator : string) (row : list string) : M unit :=
  write path (Csv.row_text lineterminator row).

(** [for line in rows: writer.writerow(line)] *)
Fixpoint writerows (path lineterminator : string) (rows : list (list string)) : M unit :=
  match rows with
  | [] => ret tt
  | row :: rest =>
      writerow path lineterminator row;;;
      writerows path lineterminator rest
  end.

(** ** encoding_properties.py *)

Section Package.

Variable rt : runtime.

(** [json.load(spec_file)] *)
Definition json_load (text : string) : exn + spec_document :=
  match json_loads rt text with
  | Some spec => inr spec
  | None => inl JSONDecodeError
  end.

(** The values [delimited_newline] may take. *)
Definition legal_newlines : list (option string) :=
  [None; Some EmptyString; Some Py.nl; Some Py.crnl; Some Py.cr].

(** [f"{delimited_newline}"] *)
Definition format_newline (delimited_newline : option string) : string :=
  match delimited_newline with
  | None => "None"
  | Some s => s
  end.

Definition illegal_newline_message (delimited_newline : option string) : string :=
  "Illegal newline value: " +:+ format_newline delimited_newline.

Definition mismatch_message : string :=
  "The number of column names and offsets do not match".

Definition fixed_width_encoding_message (fixed_width_encoding : string) : string :=
  fixed_width_encoding
  +:+ " is either not a valid encoding, or it has not been implemented.".

Definition delimited_encoding_message (delimited_encoding : string) : string :=
  delimited_encoding
  +:+ " is either not a valid encoding or it has not been implemented.".

Definition set_column_names (v : list string) (p : EncodingProperties) :=
  {| spec_filename := spec_filename p;
     fixed_width_filename := fixed_width_filename p;
     delimited_filename := delimited_filename p;
     delimited_newline := delimited_newline p;
     column_names := v;
     offsets := offsets p;
     fixed_width_encoding := fixed_width_encoding p;
     delimited_encoding := delimited_encoding p;
     include_header := include_header p |}.

Definition set_offsets (v : list Z) (p : EncodingProperties) :=
  {| spec_filename := spec_filename p;
     fixed_width_filename := fixed_width_filename p;
     delimited_filename := delimited_filename p;
     delimited_newline := delimited_newline p;
     column_names := column_names p;
     offsets := v;
     fixed_width_encoding := fixed_width_encoding p;
     delimited_encoding := delimited_encoding p;
     include_header := include_header p |}.

Definition set_fixed_width_encoding (v : string) (p : EncodingProperties) :=
  {| spec_filename := spec_filename p;
     fixed_width_filename := fixed_width_filename p;
     delimited_filename := delimited_filename p;
     delimited_newline := delimited_newline p;
     column_names := column_names p;
     offsets := offsets p;
     fixed_width_encoding := v;
     delimited_encoding := delimited_encoding p;
     include_header := include_header p |}.

Definition set_delimited_encoding (v : string) (p : EncodingProperties) :=
  {| spec_filename := spec_filename p;
     fixed_width_filename := fixed_width_filename p;
     delimited_filename := delimited_filename p;
     delimited_newline := delimited_newline p;
     column_names := column_names p;
     offsets := offsets p;
     fixed_width_encoding := fixed_width_encoding p;
     delimited_encoding := v;
     include_header := include_header p |}.

Definition set_include_header (v : bool) (p : EncodingProperties) :=
  {| spec_filename := spec_filename p;
     fixed_width_filename := fixed_width_filename p;
     delimited_filename := delimited_filename p;
     delimited_newline := delimited_newline p;
     column_names := column_names p;
     offsets := offsets p;
     fixed_width_encoding := fixed_width_encoding p;
     delimited_encoding := delimited_encoding p;
     include_header := v |}.

(** The nine assignments [__init__] opens with: the arguments as given,
    the other attributes at their defaults. *)
Definition first_assignments
    (spec_filename fixed_width_filename delimited_filename : string)
    (delimited_newline : option string) : EncodingProperties :=
  {| spec_filename := spec_filename;
     fixed_width_filename := fixed_width_filename;
     delimited_filename := delimited_filename;
     delimited_newline := delimited_newline;
     column_names := [];
     offsets := [];
     fixed_width_encoding := EmptyString;
     delimited_encoding := EmptyString;
     include_header := false |}.

(** [EncodingProperties.__init__]: the statements in source order.  The
    object under construction is [encoding_props] of the state. *)
Definition EncodingProperties_init
    (spec_filename fixed_width_filename delimited_filename : string)
    (delimited_newline : option string) : M unit :=
  update_self (fun _ =>
    first_assignments spec_filename fixed_width_filename delimited_filename
      delimited_newline);;;
  (* Load spec file *)
  let* text := open_read spec_filename None in
  let* spec := lift (json_load text) in
  (* Raise exception for illegal delimited_newline character *)
  (if bool_decide (delimited_newline ∉ legal_newlines)
   then raise (ValueError (illegal_newline_message delimited_newline))
   else ret tt);;;
  (* Set column names and offsets and assert their lengths are equal *)
  update_self (set_column_names (ColumnNames spec));;;
  let* ints := lift (map_int (Offsets spec)) in
  update_self (set_offsets ints);;;
  let* self := get_self in
  (if bool_decide (length (column_names self) ≠ length (offsets self))
   then raise (ValueError mismatch_message)
   else ret tt);;;
  (* Check whether header should be written *)
  (if bool_decide (IncludeHeader spec = "True")
   then update_self (set_include_header true)
   else update_self (set_include_header false));;;
  (* Reject specs with unrecognised fixed width encoding *)
  (if bool_decide (FixedWidthEncoding spec ≠ "windows-1252")
   then raise (ValueError (fixed_width_encoding_message (FixedWidthEncoding spec)))
   else update_self (set_fixed_width_encoding "cp1252"));;;
  (* Reject specs with unrecognised delimited encoding *)
  (if bool_decide (DelimitedEncoding spec ≠ "utf-8")
   then raise (ValueError (delimited_encoding_message (DelimitedEncoding spec)))
   else update_self (set_delimited_encoding "UTF-8")).

(** The expression [EncodingProperties(...)]: the constructed object when
    [__init__] returns, the exception when it raises. *)
Definition new_EncodingProperties
    (spec_filename fixed_width_filename delimited_filename : string)
    (delimited_newline : option string) : M EncodingProperties :=
  EncodingProperties_init spec_filename fixed_width_filename
    delimited_filename delimited_newline;;;
  get_self.

(** ** delimited_writer.py *)

Definition width_message : string :=
  "One or more fields are of incorrect length".

(** The body of the loop over the lines of the fixed width file: strip the
    newline, check the length, pull out each field. *)
Definition parse_line (offsets : list Z) (line : string) : exn + list string :=
  let line := Py.replace_char Py.LF line in
  if bool_decide (Py.len line ≠ Py.sum offsets)
  then inl (ValueError width_message)
  else
    inr (imap (fun i offset =>
                 Py.replace_char Py.SPACE
                   (Py.slice line (Py.sum (take i offsets))
                      (Py.sum (take i offsets) + offset)))
           offsets).

(** [for line in f: ...; delimited_data.append(line_data)] *)
Fixpoint parse_lines (offsets : list Z) (lines : list string)
    (delimited_data : list (list string)) : exn + list (list string) :=
  match lines with
  | [] => inr delimited_data
  | line :: rest =>
      match parse_line offsets line with
      | inl e => inl e
      | inr line_data => parse_lines offsets rest (delimited_data ++ [line_data])
      end
  end.

(** [DelimitedFileWriter.parse_fixed_width_file] *)
Definition parse_fixed_width_file : M (list (list string)) :=
  let* self := get_self in
  let fixed_width_filename := fixed_width_filename self in
  let fixed_width_encoding := fixed_width_encoding self in
  let offsets := offsets self in
  let delimited_data := [] in
  let* text := open_read fixed_width_filename (Some fixed_width_encoding) in
  lift (parse_lines offsets (iter_lines EmptyString text) delimited_data).

(** The line terminator handed to [csv.writer]: [os.linesep] when
    [delimited_newline] is [None] or empty; the branches for [\n], [\r] and
    [\r\n] keep the value, and so does falling through all of them. *)
Definition resolve_newline (delimited_newline : option string) : string :=
  match delimited_newline with
  | None => os_linesep rt
  | Some s => if decide (s = EmptyString) then os_linesep rt else s
  end.

(** [DelimitedFileWriter.generate_delimited_file] *)
Definition generate_delimited_file (delimited_data : list (list string)) : M unit :=
  let* self := get_self in
  let delimited_filename := delimited_filename self in
  let delimited_encoding := delimited_encoding self in
  let delimited_newline := delimited_newline self in
  let include_header := include_header self in
  open_write delimited_filename (Some delimited_encoding);;;
  (* Ensure that newline behaviour is as described in class docstrings *)
  let delimited_newline := resolve_newline delimited_newline in
  (* Write the header out, if required *)
  (if include_header
   then
     let* self := get_self in
     writerow delimited_filename delimited_newline (column_names self)
   else ret tt);;;
  (* Write out data *)
  writerows delimited_filename delimited_newline delimited_data.

(** One run of the package as the tests drive it: construct the
    configuration, parse, generate. *)
Definition run_pipeline
    (spec_filename fixed_width_filename delimited_filename : string)
    (delimited_newline : option string) : M unit :=
  EncodingProperties_init spec_filename fixed_width_filename
    delimited_filename delimited_newline;;;
  let* delimited_data := parse_fixed_width_file in
  generate_delimited_file delimited_data.

End Package.

(** ** fixed_width_writer.py: the padding convention *)

(** How a mock line is laid out: each field padded to its column
    ([column_data.ljust(offset)]), the fields written one after another. *)
Inductive justify : Type := JLeft | JRight.

Definition pad (side : justify) (field : string) (width : Z) : string :=
  match side with
  | JLeft => Py.ljust field width
  | JRight => Py.rjust field width
  end.

Fixpoint fixed_width_line (side : justify) (fields : list string)
    (offsets : list Z) : string :=
  match fields, offsets with
  | field :: fields', offset :: offsets' =>
      pad side field offset +:+ fixed_width_line side fields' offsets'
  | _, _ => EmptyString
  end.

(** A record fits a column specification: one field per column, none
    longer than its column. *)
Definition fits (fields : list string) (offsets : list Z) : Prop :=
  Forall2 (λ field w, Py.len field ≤ w) fields offsets.

(** *** The mock writer *)

(** The values [open] accepts for [newline]. *)
Definition io_newlines : list (option string) :=
  [None; Some EmptyString; Some Py.nl; Some Py.cr; Some Py.crnl].

Definition illegal_io_newline_message (newline : option string) : string :=
  "illegal newline value: " +:+ format_newline newline.

(** What a written [\n] turns into under a [newline] setting: the host's
    line ending for [None], itself for the empty string and for [\n], the
    setting otherwise. *)
Definition write_newline (linesep : string) (newline : option string) : string :=
  match newline with
  | None => linesep
  | Some s => if decide (s = EmptyString) then Py.nl else s
  end.

(** [data.replace("\n", to)] *)
Fixpoint translate_on_write (to : string) (data : string) : string :=
  match data with
  | EmptyString => EmptyString
  | String c rest =>
      if decide (c = Py.LF) then to +:+ translate_on_write to rest
      else String c (translate_on_write to rest)
  end.

(** [open(path, "w", encoding=encoding, newline=newline)]: the file is
    created or truncated first; the newline setting is checked by the text
    layer built on top of it. *)
Definition open_text_write (path : string) (encoding newline : option string) : M unit :=
  emit (EOpen path "w" encoding newline);;;
  (fun st =>
     if decide (path ∈ unwritable st) then (st, inl (OSError path))
     else set_file path EmptyString st);;;
  if bool_decide (newline ∉ io_newlines)
  then raise (ValueError (illegal_io_newline_message newline))
  else ret tt.

Section MockWriter.

Variable rt : runtime.

(** [f.write(data)] on a file opened with [newline]. *)
Definition write_text (path : string) (newline : option string) (data : string) : M unit :=
  write path (translate_on_write (write_newline (os_linesep rt) newline) data).

(** [for field in line: f.write(field)] *)
Fixpoint write_fields (path : string) (newline : option string)
    (line : list string) : M unit :=
  match line with
  | [] => ret tt
  | field :: rest =>
      write_text path newline field;;;
      write_fields path newline rest
  end.

(** The loop of [write_fixed_width_file]: the fields of each line, then
    [f.write("\n")]. *)
Fixpoint write_lines (path : string) (newline : option string)
    (fixed_width_data : list (list string)) : M unit :=
  match fixed_width_data with
  | [] => ret tt
  | line :: rest =>
      write_fields path newline line;;;
      write_text path newline Py.nl;;;
      write_lines path newline rest
  end.

(** [MockFixedWidthFileWriter.write_fixed_width_file]; [fixed_width_newline]
    is the attribute of that name. *)
Definition write_fixed_width_file (fixed_width_newline : option string)
    (fixed_width_data : list (list string)) : M unit :=
  let* self := get_self in
  let fixed_width_filename := fixed_width_filename self in
  let fixed_width_encoding := fixed_width_encoding self in
  open_text_write fixed_width_filename (Some fixed_width_encoding)
    fixed_width_newline;;;
  write_lines fixed_width_filename fixed_width_newline fixed_width_data.

End MockWriter.

(** *** The mock generator

    [random] is modelled by a stream of draws: the [n]-th call of
    [randint(a, b)] returns [a + draws n mod (b - a + 1)], so that every
    value of the range is some stream's outcome; an empty range raises. *)

Inductive randrange_error : Type :=
| EmptyRange (a b : Z).

Definition R (A : Type) : Type := nat -> nat * (randrange_error + A).

Definition rret {A} (a : A) : R A := fun n => (n, inr a).

Definition rbind {A B} (m : R A) (k : A -> R B) : R B :=
  fun n =>
    match m n with
    | (n', inl e) => (n', inl e)
    | (n', inr a) => k a n'
    end.

Notation "'let+' x := m 'in' k" := (rbind m (fun x => k))
  (at level 10, x name, m at level 100, k at level 200).

(** [s * n] *)
Definition str_mul (s : string) (n : Z) : string :=
  Nat.iter (Z.to_nat n) (String.append s) EmptyString.

(** [decoding_table[code]]: the character that the byte [code] stands for
    in cp1252, which the text model names by that code. *)
Definition decoding_table (code : Z) : ascii := ascii_of_N (Z.to_N code).

(** The codes replaced by ["!"]: the control character 127, the five
    undefined ones and the no-break space. *)
Definition replaced_codes : list Z := [127; 129; 141; 143; 144; 157; 160].

Section MockGenerator.

Variable draws : nat -> Z.

(** [random.randint(a, b)] *)
Definition randint (a b : Z) : R Z :=
  fun n =>
    if b <? a then (n, inl (EmptyRange a b))
    else (S n, inr (a + draws n mod (b - a + 1))).

(** The body of the loop over the offsets: one padded column. *)
Definition mock_column (offset : Z) : R string :=
  let+ repeats := randint 1 offset in
  let column_data := EmptyString in
  let+ rand_char := randint 33 255 in
  let rand_char :=
    if bool_decide (rand_char ∈ replaced_codes) then 33 else rand_char in
  let column_data :=
    column_data +:+ str_mul (String (decoding_table rand_char) EmptyString) repeats in
  rret (Py.ljust column_data offset).

(** [for offset in offsets: ...; line_data.append(...)] *)
Fixpoint mock_line (offsets : list Z) (line_data : list string) : R (list string) :=
  match offsets with
  | [] => rret line_data
  | offset :: rest =>
      let+ column := mock_column offset in
      mock_line rest (line_data ++ [column])
  end.

(** [for line in range(num_lines): ...; data.append(line_data)] *)
Fixpoint mock_lines (num_lines : nat) (encoding_props : EncodingProperties)
    (data : list (list string)) : R (list (list string)) :=
  match num_lines with
  | O => rret data
  | S remaining =>
      let+ line_data := mock_line (offsets encoding_props) [] in
      mock_lines remaining encoding_props (data ++ [line_data])
  end.

(** [MockFixedWidthFileWriter.generate_fixed_width_data] *)
Definition generate_fixed_width_data (encoding_props : EncodingProperties)
    : R (list (list string)) :=
  let data := [] in
  let num_lines := 10%nat in
  mock_lines num_lines encoding_props data.

End MockGenerator.

(** ** test_delimited_writer.py: the checks of [helper_test_newlines] *)

(** Iterating over a text file opened with [newline=""]: lines end at
    [\n], at [\r\n] and at a [\r] that no [\n] follows, and keep their
    ending as it is in the file. *)
Fixpoint iter_lines_raw (cur : string) (s : string) : list string :=
  match s with
  | EmptyString => if decide (cur = EmptyString) then [] else [cur]
  | String c rest =>
      if decide (c = Py.LF) then (cur +:+ Py.nl) :: iter_lines_raw EmptyString rest
      else if decide (c = Py.CR) then
        match rest with
        | String c' rest' =>
            if decide (c' = Py.LF)
            then (cur +:+ Py.crnl) :: iter_lines_raw EmptyString rest'
            else (cur +:+ Py.cr) :: iter_lines_raw EmptyString rest
        | EmptyString => [cur +:+ Py.cr]
        end
      else iter_lines_raw (cur +:+ String c EmptyString) rest
  end.

(** [line[len(line) - len(linesep):] == linesep], the comparison behind
    each [assertEqual] of the helper. *)
Definition ends_as_expected (linesep : string) (line : string) : bool :=
  bool_decide (Py.slice line (Py.len line - Py.len linesep) (Py.len line) = linesep).

(** The ending the helper expects of the lines of the fixed width file:
    [os.linesep] for [None], the setting otherwise (the branch for the
    empty string and [\n] only compares and assigns nothing). *)
Definition expected_fixed_width_newline (linesep : string)
    (fixed_width_newline : option string) : string :=
  match fixed_width_newline with
  | None => linesep
  | Some s => s
  end.

(** The ending it expects of the lines of the delimited file. *)
Definition expected_delimited_newline (linesep : string)
    (delimited_newline : option string) : string :=
  if bool_decide (delimited_newline ∈ [Some EmptyString; None]) then linesep
  else default EmptyString delimited_newline.

(** The loop over a file read back with [newline=""]: every line passes
    the comparison. *)
Definition lines_end_as_expected (linesep : string) (text : string) : bool :=
  forallb (ends_as_expected linesep) (iter_lines_raw EmptyString text).

(** ** Vocabulary for the statements

    The spec's names for the errors: the package raises [ValueError]
    throughout, and the kinds are told apart by their messages. *)

Definition IllegalTerminatorError (value : string) : exn :=
  ValueError (illegal_newline_message (Some value)).
Definition SpecMismatchError : exn := ValueError mismatch_message.
Definition RecordWidthError : exn := ValueError width_message.
Definition UnsupportedSourceEncodingError (value : string) : exn :=
  ValueError (fixed_width_encoding_message value).
Definition UnsupportedTargetEncodingError (value : string) : exn :=
  ValueError (delimited_encoding_message value).

(** [s] ends with [suffix]. *)
Definition ends_with (suffix s : string) : Prop :=
  exists front, s = front +:+ suffix.

(** The last character of a string. *)
Fixpoint last_char (s : string) : option ascii :=
  match s with
  | EmptyString => None
  | String c EmptyString => Some c
  | String _ rest => last_char rest
  end.

(** The texts of a list of writes, one after another. *)
Definition concat_texts (texts : list string) : string :=
  foldr String.append EmptyString texts.

(** No field holds the character [c]. *)
Definition free_of (c : ascii) (fields : list string) : Prop :=
  Forall (λ field, Py.contains c field = false) fields.

(** The rows [generate_delimited_file] writes: the header when asked for,
    then the data. *)
Definition rows_written (self : EncodingProperties)
    (delimited_data : list (list string)) : list (list string) :=
  (if include_header self then [column_names self] else []) ++ delimited_data.

(** The text of a file whose lines are all closed by [terminator]. *)
Definition text_of_lines (terminator : string) (lines : list string) : string :=
  concat_texts ((λ line, line +:+ terminator) <$> lines).

(** A line without line break characters. *)
Definition unbroken (line : string) : Prop :=
  Py.contains Py.CR line = false ∧ Py.contains Py.LF line = false.

(** A decoded field: no space and no line break character in it. *)
Definition bare (field : string) : Prop :=
  Py.contains Py.SPACE field = false
  ∧ Py.contains Py.LF field = false
  ∧ Py.contains Py.CR field = false.

(** The rows of [data] are laid out for the columns [layout]: one field
    per column, exactly as long as the column. *)
Definition laid_out (layout : list Z) (data : list (list string)) : Prop :=
  Forall (λ row, Forall2 (λ field w, Py.len field = w) row layout) data.

(** One column as the mock generator makes it: a character other than the
    replaced ones, one to [w] times, padded on the right to [w]. *)
Definition mock_shape (w : Z) (column : string) : Prop :=
  exists code repeats,
    33 ≤ code ≤ 255 ∧ (code ∉ replaced_codes) ∧ 1 ≤ repeats ≤ w
    ∧ column
      = Py.ljust (str_mul (String (decoding_table code) EmptyString) repeats) w.

(** What the decoder is expected to return for mock data: every field
    with its spaces removed. *)
Definition without_spaces (data : list (list string)) : list (list string) :=
  (λ row : list string, Py.replace_char Py.SPACE <$> row) <$> data.

(** ** Concrete hosts and spec documents for examples *)

Definition json_string (s : string) : string :=
  String Py.DQUOTE (s +:+ String Py.DQUOTE EmptyString).

Definition json_array (items : list string) : string :=
  "[" +:+ Py.join ", " items +:+ "]".

Definition json_offset (v : pyval) : string :=
  match v with
  | PStr s => json_string s
  | PInt z => pretty z
  end.

(** The JSON text of a spec document whose strings need no escaping. *)
Definition spec_text (spec : spec_document) : string :=
  "{" +:+ json_string "ColumnNames" +:+ ": "
  +:+ json_array (json_string <$> ColumnNames spec) +:+ ", "
  +:+ json_string "Offsets" +:+ ": "
  +:+ json_array (json_offset <$> Offsets spec) +:+ ", "
  +:+ json_string "IncludeHeader" +:+ ": "
  +:+ json_string (IncludeHeader spec) +:+ ", "
  +:+ json_string "FixedWidthEncoding" +:+ ": "
  +:+ json_string (FixedWidthEncoding spec) +:+ ", "
  +:+ json_string "DelimitedEncoding" +:+ ": "
  +:+ json_string (DelimitedEncoding spec) +:+ "}".

(** A host whose JSON parser knows the texts of the listed documents. *)
Definition host (linesep : string) (known : list spec_document) : runtime :=
  {| os_linesep := linesep;
     json_loads := fun text =>
       head (filter (fun spec => spec_text spec = text) known) |}.

Definition make_spec (names : list string) (widths : list string)
    (header : string) : spec_document :=
  {| ColumnNames := names;
     Offsets := PStr <$> widths;
     IncludeHeader := header;
     FixedWidthEncoding := "windows-1252";
     DelimitedEncoding := "utf-8" |}.

Definition spec_AB : spec_document := make_spec ["A"; "B"] ["3"; "2"] "True".

Definition blank : EncodingProperties :=
  {| spec_filename := EmptyString;
     fixed_width_filename := EmptyString;
     delimited_filename := EmptyString;
     delimited_newline := None;
     column_names := [];
     offsets := [];
     fixed_width_encoding := EmptyString;
     delimited_encoding := EmptyString;
     include_header := false |}.

(** A state with the given files and nothing else. *)
Definition initial (fs : list (string * string)) : state :=
  {| encoding_props := blank;
     files := list_to_map fs;
     unwritable := ∅;
     log := [] |}.

Definition TAB : ascii := "009"%char.
Definition tab : string := String TAB EmptyString.

Definition spec_empty : spec_document := make_spec [] [] "True".
Definition spec_nonpositive : spec_document :=
  make_spec ["A"; "B"] ["0"; "-3"] "False".
Definition spec_three_two : spec_document :=
  make_spec ["A"; "B"; "C"] ["3"; "2"] "True".
Definition spec_latin1 : spec_document :=
  {| ColumnNames := ["A"; "B"];
     Offsets := [PStr "3"; PStr "2"];
     IncludeHeader := "True";
     FixedWidthEncoding := "latin-1";
     DelimitedEncoding := "utf-8" |}.

Definition known_specs : list spec_document :=
  [spec_AB; spec_empty; spec_nonpositive; spec_three_two; spec_latin1].

Definition posix : runtime := host Py.nl known_specs.
Definition windows : runtime := host Py.crnl known_specs.

(** A disk with the spec document at [spec.json] and the fixed width
    input at [fixed_width.txt]. *)
Definition disk (spec : spec_document) (input : string) : state :=
  initial [("spec.json", spec_text spec); ("fixed_width.txt", input)].

(** The configuration the constructor builds from [spec_AB]. *)
Definition props_AB (delimited_newline : option string) : EncodingProperties :=
  {| spec_filename := "spec.json";
     fixed_width_filename := "fixed_width.txt";
     delimited_filename := "delimited.txt";
     delimited_newline := delimited_newline;
     column_names := ["A"; "B"];
     offsets := [3; 2];
     fixed_width_encoding := "cp1252";
     delimited_encoding := "UTF-8";
     include_header := true |}.

(** The same disk once that configuration is in place. *)
Definition configured (delimited_newline : option string) (input : string) : state :=
  with_self (fun _ => props_AB delimited_newline) (disk spec_AB input).

(** Further examples: a spec document wrong in both encodings, a
    configuration with widths below 1, two input lines, two laid out rows
    and a stream of draws. *)
Definition spec_both_wrong : spec_document :=
  {| ColumnNames := ["A"; "B"];
     Offsets := [PStr "3"; PStr "2"];
     IncludeHeader := "yes";
     FixedWidthEncoding := "latin-1";
     DelimitedEncoding := "ascii" |}.

Definition posix_both_wrong : runtime := host Py.nl [spec_both_wrong].

Definition props_nonpositive : EncodingProperties :=
  {| spec_filename := "spec.json";
     fixed_width_filename := "fixed_width.txt";
     delimited_filename := "delimited.txt";
     delimited_newline := None;
     column_names := ["A"; "B"];
     offsets := [0; -3];
     fixed_width_encoding := "cp1252";
     delimited_encoding := "UTF-8";
     include_header := false |}.

Definition two_lines : list string := ["abc1 "; "x  2 "].

Definition two_records : list (list string) := [["abc"; "1"]; ["x"; "2"]].

Definition two_rows : list (list string) := [["ab "; "1 "]; ["c  "; "dd"]].

Definition wide_rows : list (list string) := [["0123456789"; "1 "]].

Definition sample_draws (n : nat) : Z := 7 * Z.of_nat n + 3.

Ltac run_init :=
  unfold new_EncodingProperties, EncodingProperties_init, open_read, json_load,
    bind, ret, raise, lift, emit, get_self, update_self; simpl.

(** * Properties *)

(** ** Strings *)

Section Strings.

Implicit Types (s t u : string) (c : ascii) (n m : nat).

Lemma append_nil_l s : EmptyString +:+ s = s.
Proof. reflexivity. Qed.

Lemma append_cons c s t : String c s +:+ t = String c (s +:+ t).
Proof. reflexivity. Qed.

Lemma append_nil_r s : s +:+ EmptyString = s.
Proof. induction s as [|c s IH]; [done|]. by rewrite append_cons, IH. Qed.

Lemma append_assoc s t u : (s +:+ t) +:+ u = s +:+ (t +:+ u).
Proof. induction s as [|c s IH]; [done|]. by rewrite !append_cons, IH. Qed.

Lemma length_append s t :
  String.length (s +:+ t) = (String.length s + String.length t)%nat.
Proof. induction s as [|c s IH]; [done|]. rewrite append_cons. simpl. by rewrite IH. Qed.

Lemma len_append s t : Py.len (s +:+ t) = Py.len s + Py.len t.
Proof. unfold Py.len. rewrite length_append. lia. Qed.

Lemma len_nonneg s : 0 ≤ Py.len s.
Proof. unfold Py.len. lia. Qed.

Lemma append_eq_nil s t : s +:+ t = EmptyString -> s = EmptyString ∧ t = EmptyString.
Proof. destruct s; [done|]. rewrite append_cons. done. Qed.

Lemma list_of_append s t :
  list_ascii_of_string (s +:+ t) = list_ascii_of_string s ++ list_ascii_of_string t.
Proof. induction s as [|c s IH]; [done|]. rewrite append_cons. simpl. by rewrite IH. Qed.

Lemma list_of_inj s t :
  list_ascii_of_string s = list_ascii_of_string t -> s = t.
Proof.
  intros H. rewrite <- (string_of_list_ascii_of_string s), H.
  apply string_of_list_ascii_of_string.
Qed.

Lemma append_cancel_r s t u : s +:+ u = t +:+ u -> s = t.
Proof.
  intros H. apply list_of_inj. apply (app_inv_tail (list_ascii_of_string u)).
  by rewrite <- !list_of_append, H.
Qed.

Lemma length_spaces n : String.length (Py.spaces n) = n.
Proof. induction n as [|n IH]; [done|]. simpl. by rewrite IH. Qed.

(** *** Slices *)

Lemma take_drop_substring n m s :
  Py.str_take n (Py.str_drop m s) = String.substring m n s.
Proof.
  revert s. induction m as [|m IH]; intros s.
  - replace (Py.str_drop 0 s) with s by (by destruct s).
    revert s. induction n as [|n IHn]; intros [|c s]; simpl; try done.
    by rewrite IHn.
  - destruct s as [|c s]; simpl; [by destruct n|]. apply IH.
Qed.

Lemma slice_substring s (a w : Z) :
  0 ≤ a -> 0 ≤ w -> a + w ≤ Py.len s ->
  Py.slice s a (a + w) = String.substring (Z.to_nat a) (Z.to_nat w) s.
Proof.
  intros Ha Hw Hle. unfold Py.slice, Py.clamp_index.
  assert ((a <? 0) = false) as -> by lia.
  assert ((a + w <? 0) = false) as -> by lia.
  rewrite take_drop_substring. f_equal; lia.
Qed.

Lemma substring_append_skip s t n m :
  String.substring (String.length s + n) m (s +:+ t) = String.substring n m t.
Proof. induction s as [|c s IH]; [done|]. rewrite append_cons. simpl. apply IH. Qed.

Lemma substring_append_head s t :
  String.substring 0 (String.length s) (s +:+ t) = s.
Proof.
  induction s as [|c s IH]; [by destruct t|].
  rewrite append_cons. simpl. by rewrite IH.
Qed.

(** *** Removing a character *)

Lemma replace_char_append c s t :
  Py.replace_char c (s +:+ t) = Py.replace_char c s +:+ Py.replace_char c t.
Proof.
  induction s as [|c' s IH]; [done|]. rewrite append_cons. simpl.
  destruct (decide (c' = c)); [done|]. by rewrite append_cons, IH.
Qed.

Lemma replace_char_absent c s :
  Py.contains c s = false -> Py.replace_char c s = s.
Proof.
  induction s as [|c' s IH]; [done|]. simpl. intros H.
  apply orb_false_elim in H as [H1 H2].
  apply bool_decide_eq_false in H1.
  destruct (decide (c' = c)); [done|]. by rewrite IH.
Qed.

Lemma replace_char_spaces n : Py.replace_char Py.SPACE (Py.spaces n) = EmptyString.
Proof. induction n as [|n IH]; [done|]. exact IH. Qed.

Lemma replace_char_filter c s :
  list_ascii_of_string (Py.replace_char c s)
  = filter (λ c', c' ≠ c) (list_ascii_of_string s).
Proof.
  induction s as [|c' s IH]; [done|]. simpl.
  destruct (decide (c' = c)) as [->|Hne].
  - rewrite filter_cons_False by (intros H; by apply H). done.
  - rewrite filter_cons_True by done. simpl. by rewrite IH.
Qed.

Lemma contains_append c s t :
  Py.contains c (s +:+ t) = Py.contains c s || Py.contains c t.
Proof.
  induction s as [|c' s IH]; [done|]. rewrite append_cons. simpl.
  by rewrite IH, orb_assoc.
Qed.

Lemma contains_spaces c n : c ≠ Py.SPACE -> Py.contains c (Py.spaces n) = false.
Proof.
  intros Hc. induction n as [|n IH]; [done|]. simpl. rewrite IH.
  rewrite bool_decide_eq_false_2; [done|]. congruence.
Qed.

(** *** Last characters *)

Lemma last_char_append s t :
  last_char (s +:+ t) = if decide (t = EmptyString) then last_char s else last_char t.
Proof.
  induction s as [|c s IH].
  - rewrite append_nil_l. by destruct (decide _) as [->|].
  - rewrite append_cons. destruct (decide (t = EmptyString)) as [->|Hne].
    + by rewrite append_nil_r.
    + destruct (decide (t = EmptyString)) as [?|_]; [done|].
      simpl. destruct (s +:+ t) eqn:E; [|done].
      apply append_eq_nil in E as [_ ?]. done.
Qed.

Lemma last_char_contains s c : last_char s = Some c -> Py.contains c s = true.
Proof.
  induction s as [|c' s IH]; [done|]. simpl. destruct s as [|c'' s].
  - intros [= ->]. by rewrite bool_decide_eq_true_2.
  - intros H. rewrite IH by done. apply orb_true_r.
Qed.

End Strings.

(** ** Decoding one line *)

Section Decode.

Implicit Types (offsets : list Z) (line field : string) (fields : list string).

Lemma sum_cons z offsets : Py.sum (z :: offsets) = z + Py.sum offsets.
Proof. reflexivity. Qed.

Lemma sum_nonneg offsets : Forall (λ w, 0 ≤ w) offsets -> 0 ≤ Py.sum offsets.
Proof. induction 1 as [|w ws Hw _ IH]; [done|]. rewrite sum_cons. lia. Qed.

(** Column [i] starts at a non-negative offset and ends within the total
    width. *)
Lemma sum_take_bounds offsets i w :
  Forall (λ w, 0 ≤ w) offsets -> offsets !! i = Some w ->
  0 ≤ Py.sum (take i offsets) ∧ 0 ≤ w
  ∧ Py.sum (take i offsets) + w ≤ Py.sum offsets.
Proof.
  intros Hall. revert i. induction Hall as [|w0 ws Hw0 Hws IH]; intros i Hi.
  - done.
  - destruct i as [|i]; simpl in Hi.
    + injection Hi as ->. pose proof (sum_nonneg ws Hws).
      unfold Py.sum in *. simpl. lia.
    + destruct (IH i Hi) as (H1 & H2 & H3).
      unfold Py.sum in *. simpl. lia.
Qed.

(** The line survives the check exactly when its length, newline removed,
    is the total width. *)
Lemma parse_line_ok offsets line :
  Py.len (Py.replace_char Py.LF line) = Py.sum offsets ->
  parse_line offsets line
  = inr (imap (fun i offset =>
                 Py.replace_char Py.SPACE
                   (Py.slice (Py.replace_char Py.LF line)
                      (Py.sum (take i offsets))
                      (Py.sum (take i offsets) + offset)))
           offsets).
Proof. intros H. unfold parse_line. by rewrite bool_decide_eq_false_2 by (by intros ?). Qed.

Lemma parse_line_bad offsets line :
  Py.len (Py.replace_char Py.LF line) ≠ Py.sum offsets ->
  parse_line offsets line = inl (ValueError width_message).
Proof. intros H. unfold parse_line. by rewrite bool_decide_eq_true_2. Qed.

(** Any error of the loop body is the width error, whatever the line. *)
Lemma parse_line_error offsets line e :
  parse_line offsets line = inl e -> e = ValueError width_message.
Proof. unfold parse_line. case_bool_decide; congruence. Qed.

(** Field [i] of a line of the right length, for non-negative widths. *)
Lemma parse_line_field offsets line fields i w :
  Forall (λ w, 0 ≤ w) offsets ->
  parse_line offsets line = inr fields ->
  offsets !! i = Some w ->
  fields !! i
  = Some (Py.replace_char Py.SPACE
            (String.substring (Z.to_nat (Py.sum (take i offsets))) (Z.to_nat w)
               (Py.replace_char Py.LF line))).
Proof.
  intros Hall Hparse Hi. unfold parse_line in Hparse.
  case_bool_decide as Hlen; [done|]. injection Hparse as <-.
  rewrite list_lookup_imap, Hi. simpl. do 2 f_equal.
  destruct (sum_take_bounds offsets i w Hall Hi) as (H1 & H2 & H3).
  apply slice_substring; lia.
Qed.

(** *** Lines laid out by padding *)

Lemma len_pad side field w : Py.len field ≤ w -> Py.len (pad side field w) = w.
Proof.
  intros H. destruct side; unfold pad, Py.ljust, Py.rjust;
    rewrite len_append; unfold Py.len in *; rewrite length_spaces; lia.
Qed.

Lemma replace_space_pad side field w :
  Py.contains Py.SPACE field = false ->
  Py.replace_char Py.SPACE (pad side field w) = field.
Proof.
  intros H. destruct side; unfold pad, Py.ljust, Py.rjust;
    rewrite replace_char_append, replace_char_spaces,
      (replace_char_absent _ field H); [apply append_nil_r | done].
Qed.

Lemma contains_pad c side field w :
  c ≠ Py.SPACE -> Py.contains c (pad side field w) = Py.contains c field.
Proof.
  intros Hc. destruct side; unfold pad, Py.ljust, Py.rjust;
    rewrite contains_append, contains_spaces by done;
    [apply orb_false_r | done].
Qed.

Lemma fits_nonneg fields offsets : fits fields offsets -> Forall (λ w, 0 ≤ w) offsets.
Proof.
  induction 1 as [|f w fs ws Hf _ IH]; constructor; [|done].
  pose proof (len_nonneg f). lia.
Qed.

Lemma len_fixed_width_line side fields offsets :
  fits fields offsets ->
  Py.len (fixed_width_line side fields offsets) = Py.sum offsets.
Proof.
  induction 1 as [|f w fs ws Hf _ IH]; [done|].
  simpl. rewrite len_append, len_pad, IH by done. done.
Qed.

Lemma contains_fixed_width_line c side fields offsets :
  c ≠ Py.SPACE -> fits fields offsets ->
  Forall (λ field, Py.contains c field = false) fields ->
  Py.contains c (fixed_width_line side fields offsets) = false.
Proof.
  intros Hc Hfit. induction Hfit as [|f w fs ws Hf _ IH]; [done|].
  intros Hall. apply Forall_cons in Hall as [H1 H2].
  simpl. rewrite contains_append, contains_pad, H1, IH by done. done.
Qed.

(** Column [i] of a padded line is field [i], padded. *)
Lemma substring_fixed_width_line side fields offsets i field w :
  fits fields offsets ->
  fields !! i = Some field -> offsets !! i = Some w ->
  String.substring (Z.to_nat (Py.sum (take i offsets))) (Z.to_nat w)
    (fixed_width_line side fields offsets)
  = pad side field w.
Proof.
  intros Hfit. revert i. induction Hfit as [|f w0 fs ws Hf Hfs IH]; intros i Hf' Hw'.
  - done.
  - pose proof (len_pad side f w0 Hf) as Hlen. unfold Py.len in Hlen.
    destruct i as [|i]; simpl in Hf', Hw'.
    + injection Hf' as ->. injection Hw' as ->. simpl.
      replace (Z.to_nat w) with (String.length (pad side field w)) by lia.
      apply substring_append_head.
    + change (take (S i) (w0 :: ws)) with (w0 :: take i ws).
      rewrite sum_cons. simpl fixed_width_line.
      destruct (sum_take_bounds ws i w (fits_nonneg _ _ Hfs) Hw') as (H1 & _).
      replace (Z.to_nat (w0 + Py.sum (take i ws)))
        with (String.length (pad side f w0) + Z.to_nat (Py.sum (take i ws)))%nat
        by lia.
      rewrite substring_append_skip. by apply IH.
Qed.

(** Decoding a padded line gives the fields back when they hold neither
    a space nor a line feed. *)
Lemma parse_line_fixed_width_line side fields offsets :
  fits fields offsets ->
  Forall (λ field, Py.contains Py.SPACE field = false) fields ->
  Forall (λ field, Py.contains Py.LF field = false) fields ->
  parse_line offsets (fixed_width_line side fields offsets) = inr fields.
Proof.
  intros Hfit Hsp Hlf.
  assert (Py.replace_char Py.LF (fixed_width_line side fields offsets)
          = fixed_width_line side fields offsets) as Hstrip.
  { apply replace_char_absent. by apply contains_fixed_width_line. }
  destruct (parse_line offsets (fixed_width_line side fields offsets))
    as [e|got] eqn:Hparse.
  { rewrite parse_line_ok in Hparse; [done|].
    rewrite Hstrip. by apply len_fixed_width_line. }
  f_equal. apply list_eq. intros i.
  destruct (offsets !! i) as [w|] eqn:Hw.
  - destruct (fields !! i) as [field|] eqn:Hfield.
    + rewrite (parse_line_field _ _ _ i w (fits_nonneg _ _ Hfit) Hparse Hw).
      rewrite Hstrip, (substring_fixed_width_line side _ _ i field w) by done.
      f_equal. apply replace_space_pad.
      by apply (Forall_lookup_1 _ _ _ _ Hsp Hfield).
    + apply lookup_ge_None in Hfield. apply lookup_lt_Some in Hw.
      apply Forall2_length in Hfit. lia.
  - rewrite parse_line_ok in Hparse
      by (rewrite Hstrip; by apply len_fixed_width_line).
    injection Hparse as <-. rewrite list_lookup_imap, Hw. simpl.
    symmetry. apply lookup_ge_None. apply lookup_ge_None in Hw.
    apply Forall2_length in Hfit. lia.
Qed.

End Decode.

(** ** Constructing the configuration *)

Section Construction.

Variable rt : runtime.

Implicit Types (st : state) (sf ff df : string) (d : option string)
  (spec : spec_document) (e : exn).

Lemma map_int_error (l : list pyval) e :
  map_int l = inl e -> exists literal, PStr literal ∈ l ∧ e = IntLiteralError literal.
Proof.
  induction l as [|v l IH]; [done|]. simpl.
  destruct v as [z|s]; simpl.
  - destruct (map_int l) as [e'|zs]; [|done].
    intros [= <-]. destruct (IH eq_refl) as (lit & Hin & ->).
    exists lit. split; [rewrite elem_of_cons; by right | done].
  - destruct (PyInt.of_string s) as [z|].
    + destruct (map_int l) as [e'|zs]; [|done].
      intros [= <-]. destruct (IH eq_refl) as (lit & Hin & ->).
      exists lit. split; [rewrite elem_of_cons; by right | done].
    + intros [= <-]. exists s. split; [rewrite elem_of_cons; by left | done].
Qed.

(** An illegal newline is some string: [None] is legal. *)
Lemma illegal_newline_is_string d :
  d ∉ legal_newlines -> exists value, d = Some value.
Proof.
  destruct d as [value|]; [by exists value|].
  intros H. exfalso. apply H. unfold legal_newlines. rewrite elem_of_cons. by left.
Qed.

(** Whatever the outcome, the constructor's only file-system call is
    opening the spec file for reading, and no file changes. *)
Lemma init_trace st sf ff df d :
  let st' := (EncodingProperties_init rt sf ff df d st).1 in
  log st' = log st ++ [EOpen sf "r" None None] ∧ files st' = files st
  ∧ unwritable st' = unwritable st.
Proof. run_init. repeat (case_match; simplify_eq/=); done. Qed.

(** With the spec file loaded, an illegal newline is what the constructor
    raises. *)
Lemma init_illegal_newline st sf ff df d text spec :
  files st !! sf = Some text ->
  json_loads rt (universal_newlines false text) = Some spec ->
  d ∉ legal_newlines ->
  (EncodingProperties_init rt sf ff df d st).2
  = inl (ValueError (illegal_newline_message d)).
Proof.
  intros Hfile Hjson Hd. run_init. rewrite Hfile. simpl. rewrite Hjson. simpl.
  by rewrite bool_decide_eq_true_2.
Qed.

(** The constructor stores the newline it was given. *)
Lemma init_keeps_newline st sf ff df d st' :
  EncodingProperties_init rt sf ff df d st = (st', inr tt) ->
  delimited_newline (encoding_props st') = d.
Proof. run_init. intros H. repeat (case_match; simplify_eq/=); done. Qed.

End Construction.

(** ** Decoding a file *)

Section DecodeFile.

Implicit Types (st : state) (offsets : list Z) (line text : string).

Lemma parse_fixed_width_file_run st text :
  files st !! fixed_width_filename (encoding_props st) = Some text ->
  parse_fixed_width_file st
  = (logged (EOpen (fixed_width_filename (encoding_props st)) "r"
               (Some (fixed_width_encoding (encoding_props st))) None) st,
     parse_lines (offsets (encoding_props st))
       (iter_lines EmptyString (universal_newlines false text)) []).
Proof.
  intros H. unfold parse_fixed_width_file, open_read, bind, get_self, emit, lift.
  simpl. by rewrite H.
Qed.

(** A malformed line anywhere makes the loop raise, whatever was
    collected before it and whatever follows it. *)
Lemma parse_lines_bad offsets before bad after acc :
  Py.len (Py.replace_char Py.LF bad) ≠ Py.sum offsets ->
  parse_lines offsets (before ++ bad :: after) acc = inl (ValueError width_message).
Proof.
  intros Hbad. revert acc. induction before as [|l before IH]; intros acc; simpl.
  - by rewrite parse_line_bad.
  - destruct (parse_line offsets l) as [e|line_data] eqn:Hl; [|apply IH].
    by rewrite (parse_line_error _ _ _ Hl).
Qed.

Lemma universal_newlines_plain line rest :
  Py.contains Py.CR line = false -> Py.contains Py.LF line = false ->
  universal_newlines false (line +:+ rest) = line +:+ universal_newlines false rest.
Proof.
  induction line as [|c line IH]; [done|]. simpl. intros Hcr Hlf.
  apply orb_false_elim in Hcr as [Hc1 Hcr]. apply orb_false_elim in Hlf as [Hc2 Hlf].
  apply bool_decide_eq_false in Hc1, Hc2.
  rewrite !append_cons. simpl.
  destruct (decide (c = Py.CR)); [done|]. destruct (decide (c = Py.LF)); [done|].
  by rewrite IH.
Qed.

Lemma iter_lines_single cur line :
  Py.contains Py.LF line = false ->
  iter_lines cur (line +:+ Py.nl) = [cur +:+ line +:+ Py.nl].
Proof.
  revert cur. induction line as [|c line IH]; intros cur; simpl.
  - done.
  - intros Hlf. apply orb_false_elim in Hlf as [Hc Hlf].
    apply bool_decide_eq_false in Hc. rewrite append_cons. simpl.
    destruct (decide (c = Py.LF)); [done|].
    rewrite IH by done. by rewrite append_assoc.
Qed.

(** A file holding one line closed by any of the three newlines is read
    as that line closed by a line feed. *)
Lemma lines_of_one_line line terminator :
  Py.contains Py.CR line = false -> Py.contains Py.LF line = false ->
  terminator ∈ [Py.nl; Py.cr; Py.crnl] ->
  iter_lines EmptyString (universal_newlines false (line +:+ terminator))
  = [line +:+ Py.nl].
Proof.
  intros Hcr Hlf Hterm. rewrite universal_newlines_plain by done.
  assert (universal_newlines false terminator = Py.nl) as ->.
  { rewrite !elem_of_cons, elem_of_nil in Hterm.
    destruct Hterm as [->|[->|[->|[]]]]; reflexivity. }
  by rewrite iter_lines_single.
Qed.

Lemma parse_line_newline offsets line :
  parse_line offsets (line +:+ Py.nl) = parse_line offsets line.
Proof.
  unfold parse_line. rewrite replace_char_append.
  change (Py.replace_char Py.LF Py.nl) with EmptyString.
  by rewrite append_nil_r.
Qed.

End DecodeFile.

(** ** Writing rows *)

Section Encode.

Implicit Types (st : state) (path t field : string) (row : list string)
  (rows : list (list string)) (c : ascii).

Lemma concat_texts_cons t (texts : list string) :
  concat_texts (t :: texts) = t +:+ concat_texts texts.
Proof. reflexivity. Qed.

Lemma writerows_run path t rows st old :
  files st !! path = Some old ->
  exists st',
    writerows path t rows st = (st', inr tt)
    ∧ encoding_props st' = encoding_props st
    ∧ unwritable st' = unwritable st
    ∧ log st' = log st ++ (EWrite path <$> (Csv.row_text t <$> rows))
    ∧ files st' = <[path := old +:+ concat_texts (Csv.row_text t <$> rows)]> (files st).
Proof.
  revert st old. induction rows as [|row rows IH]; intros st old Hold.
  - exists st. simpl. unfold ret. rewrite app_nil_r.
    change (concat_texts []) with EmptyString. rewrite append_nil_r.
    by rewrite insert_id.
  - simpl. unfold bind, writerow, write, emit, set_file. simpl. rewrite Hold. simpl.
    edestruct (IH (with_file path (old +:+ Csv.row_text t row)
                     (logged (EWrite path (Csv.row_text t row)) st)))
      as (st' & Hrun & Hself & Hunw & Hlog & Hfiles).
    { simpl. apply lookup_insert_eq. }
    exists st'. rewrite Hrun, Hself, Hunw, Hlog, Hfiles.
    unfold concat_texts. simpl. rewrite insert_insert_eq, append_assoc, <- app_assoc.
    done.
Qed.

(** *** What a record can end with *)

Lemma last_char_unquoted t field c :
  Csv.needs_quotes t field = false -> last_char field = Some c ->
  Csv.special t c = false.
Proof.
  induction field as [|c' field IH]; [done|]. simpl. intros Hq.
  apply orb_false_elim in Hq as [Hc' Hq]. destruct field as [|c'' field].
  - by intros [= <-].
  - by apply IH.
Qed.

Lemma last_char_quoted field : last_char (Csv.quoted field) = Some Py.DQUOTE.
Proof.
  unfold Csv.quoted.
  assert (last_char (Csv.double_quotes field +:+ String Py.DQUOTE EmptyString)
          = Some Py.DQUOTE) as H.
  { rewrite last_char_append. by destruct (decide _). }
  simpl. destruct (Csv.double_quotes field +:+ String Py.DQUOTE EmptyString); done.
Qed.

Lemma last_char_render_field t field c :
  last_char (Csv.render_field t field) = Some c ->
  Csv.special t c = false ∨ c = Py.DQUOTE.
Proof.
  unfold Csv.render_field. destruct (Csv.needs_quotes t field) eqn:Hq.
  - rewrite last_char_quoted. intros [= <-]. by right.
  - intros H. left. by apply (last_char_unquoted t field).
Qed.

Lemma last_char_join t (fields : list string) c :
  last_char (Py.join (String Py.COMMA EmptyString) (Csv.render_field t <$> fields))
  = Some c ->
  Csv.special t c = false ∨ c = Py.DQUOTE ∨ c = Py.COMMA.
Proof.
  induction fields as [|f fields IH]; [done|].
  destruct fields as [|g fields].
  - simpl. intros H. destruct (last_char_render_field _ _ _ H); auto.
  - change (Py.join (String Py.COMMA EmptyString)
              (Csv.render_field t <$> f :: g :: fields))
      with (Csv.render_field t f +:+ String Py.COMMA EmptyString
            +:+ Py.join (String Py.COMMA EmptyString)
                  (Csv.render_field t <$> g :: fields)).
    rewrite last_char_append. destruct (decide _) as [Hnil|_].
    { apply append_eq_nil in Hnil as [? _]. done. }
    rewrite last_char_append. destruct (decide _) as [_|_].
    + intros [= <-]. auto.
    + apply IH.
Qed.

Lemma last_char_record t row c :
  last_char (Csv.record t row) = Some c ->
  Csv.special t c = false ∨ c = Py.DQUOTE ∨ c = Py.COMMA.
Proof.
  unfold Csv.record. destruct (_ && _).
  - rewrite last_char_quoted. intros [= <-]. auto.
  - apply last_char_join.
Qed.

(** Every row text ends with the terminator. *)
Lemma row_text_ends_with t row : ends_with t (Csv.row_text t row).
Proof. by exists (Csv.record t row). Qed.

(** For the three newlines, no row text ends with the terminator twice:
    a record cannot itself end with a character of the terminator. *)
Lemma row_text_terminated_once t row :
  t ∈ [Py.nl; Py.cr; Py.crnl] ->
  ¬ ends_with (t +:+ t) (Csv.row_text t row).
Proof.
  intros Ht [front Heq]. unfold Csv.row_text in Heq.
  rewrite <- append_assoc in Heq. apply append_cancel_r in Heq.
  assert (exists c, last_char t = Some c ∧ c ≠ Py.DQUOTE ∧ c ≠ Py.COMMA
                    ∧ t ≠ EmptyString) as (c & Hlast & Hdq & Hcomma & Hne).
  { rewrite !elem_of_cons, elem_of_nil in Ht.
    destruct Ht as [->|[->|[->|[]]]]; eexists; (split; [reflexivity|done]). }
  assert (last_char (Csv.record t row) = Some c) as Hrec.
  { rewrite Heq, last_char_append. by destruct (decide _). }
  apply last_char_record in Hrec as [Hsp|[?|?]]; [|done..].
  unfold Csv.special in Hsp. apply orb_false_elim in Hsp as [_ Hin].
  by rewrite (last_char_contains _ _ Hlast) in Hin.
Qed.

End Encode.

Section EncodeFile.

Variable rt : runtime.

Implicit Types (st : state) (delimited_data : list (list string)).

Lemma writerows_self path t (rows : list (list string)) st :
  encoding_props (writerows path t rows st).1 = encoding_props st.
Proof.
  revert st. induction rows as [|row rows IH]; intros st; [done|].
  simpl. unfold bind, writerow, write, emit, set_file. simpl. by rewrite IH.
Qed.

Lemma generate_delimited_file_self st delimited_data :
  encoding_props (generate_delimited_file rt delimited_data st).1
  = encoding_props st.
Proof.
  unfold generate_delimited_file, open_write, bind, get_self, emit, set_file.
  simpl. destruct (decide _); [done|]. simpl.
  destruct (include_header (encoding_props st)).
  - unfold writerow, write, bind, emit, set_file, get_self. simpl.
    by rewrite writerows_self.
  - unfold ret. by rewrite writerows_self.
Qed.

Lemma parse_fixed_width_file_self st :
  encoding_props (parse_fixed_width_file st).1 = encoding_props st.
Proof.
  unfold parse_fixed_width_file, open_read, bind, get_self, emit, lift. simpl.
  by destruct (files st !! _).
Qed.

Lemma generate_delimited_file_run st delimited_data :
  delimited_filename (encoding_props st) ∉ unwritable st ->
  let self := encoding_props st in
  let t := resolve_newline rt (delimited_newline self) in
  let texts := Csv.row_text t <$> rows_written self delimited_data in
  exists st',
    generate_delimited_file rt delimited_data st = (st', inr tt)
    ∧ encoding_props st' = self
    ∧ log st'
      = log st
        ++ EOpen (delimited_filename self) "w" (Some (delimited_encoding self))
             (Some EmptyString)
        :: (EWrite (delimited_filename self) <$> texts)
    ∧ files st' = <[delimited_filename self := concat_texts texts]> (files st).
Proof.
  intros Hw self t texts.
  set (opened := with_file (delimited_filename self) EmptyString
                   (logged (EOpen (delimited_filename self) "w"
                              (Some (delimited_encoding self)) (Some EmptyString))
                      st)).
  destruct (writerows_run (delimited_filename self) t
              (rows_written self delimited_data) opened EmptyString)
    as (st' & Hrun & Hself & _ & Hlog & Hfiles).
  { apply lookup_insert_eq. }
  exists st'. split; [|split; [|split]].
  - rewrite <- Hrun.
    unfold generate_delimited_file, open_write, bind, get_self, emit, set_file.
    simpl. rewrite decide_False by done. simpl.
    unfold rows_written. fold self.
    destruct (include_header self); reflexivity.
  - by rewrite Hself.
  - rewrite Hlog. simpl. by rewrite <- app_assoc.
  - rewrite Hfiles. simpl. by rewrite insert_insert_eq.
Qed.

End EncodeFile.

(** * The claims *)

Section Claims.

Variable rt : runtime.

Implicit Types (st : state) (sf ff df : string) (d : option string)
  (spec : spec_document) (offsets : list Z) (fields : list string).

(** C1 (amended): for the columns [("A",3),("B",2)] the 5-character line
    [abc1 ] decodes to the record [abc, 1], and the run with the header
    enabled, comma as delimiter and a line feed as terminator leaves exactly
    [A,B\nabc,1\n] in the output file, whatever the host's own line ending.
    The 6-character line [abc 1 ] decodes to the same record when the first
    column is 4 wide. *)
Theorem C1_end_to_end (linesep : string) :
  parse_line [3; 2] "abc1 " = inr ["abc"; "1"]
  ∧ parse_line [4; 2] "abc 1 " = inr ["abc"; "1"]
  ∧ (let outcome :=
       run_pipeline (host linesep [spec_AB]) "spec.json" "fixed_width.txt"
         "delimited.txt" (Some Py.nl) (disk spec_AB ("abc1 " +:+ Py.nl)) in
     outcome.2 = inr tt
     ∧ encoding_props outcome.1 = props_AB (Some Py.nl)
     ∧ files outcome.1 !! "delimited.txt"
       = Some ("A,B" +:+ Py.nl +:+ "abc,1" +:+ Py.nl)).
Proof. repeat split; vm_compute; reflexivity. Qed.

(** C2 (amended): when the output terminator is none of the legal values,
    the constructor's only file-system call is opening the spec file for
    reading, which it does before the terminator check; no file is changed,
    and once the spec file has been read and parsed the constructor raises
    the illegal-newline error naming the value. *)
Theorem C2_illegal_newline_raised_after_spec_load st sf ff df d :
  d ∉ legal_newlines ->
  let outcome := EncodingProperties_init rt sf ff df d st in
  log outcome.1 = log st ++ [EOpen sf "r" None None]
  ∧ files outcome.1 = files st
  ∧ (forall text spec,
       files st !! sf = Some text ->
       json_loads rt (universal_newlines false text) = Some spec ->
       exists value, d = Some value ∧ outcome.2 = inl (IllegalTerminatorError value)).
Proof.
  intros Hd outcome.
  destruct (init_trace rt st sf ff df d) as (Hlog & Hfiles & _).
  split; [done|]. split; [done|].
  intros text spec Hfile Hjson.
  destruct (illegal_newline_is_string d Hd) as [value ->].
  exists value. split; [done|].
  unfold outcome. by rewrite (init_illegal_newline rt st sf ff df _ text spec).
Qed.

(** C3: when the fixed width file can be read and one of its logical lines
    has a length, newline stripped, other than the sum of the widths, the
    decode raises the width error: no record is returned, whatever the lines
    before it decoded to and whatever lines follow it. *)
Theorem C3_malformed_line_aborts_decode st text before bad after :
  files st !! fixed_width_filename (encoding_props st) = Some text ->
  iter_lines EmptyString (universal_newlines false text) = before ++ bad :: after ->
  Py.len (Py.replace_char Py.LF bad) ≠ Py.sum (offsets (encoding_props st)) ->
  parse_fixed_width_file st
  = (logged (EOpen (fixed_width_filename (encoding_props st)) "r"
               (Some (fixed_width_encoding (encoding_props st))) None) st,
     inl RecordWidthError).
Proof.
  intros Hfile Hlines Hbad.
  rewrite (parse_fixed_width_file_run st text Hfile), Hlines. f_equal.
  by apply parse_lines_bad.
Qed.

(** C4 (amended): for every record with one field per column, no field
    longer than its column and no field holding a space, a line feed or a
    carriage return, the line built by padding each field with spaces to its
    column width (on either side) and joining the padded fields, written to
    the fixed width file and closed by any of the three newlines, decodes to
    exactly that record. *)
Theorem C4_round_trip st side fields terminator :
  fits fields (offsets (encoding_props st)) ->
  free_of Py.SPACE fields ->
  free_of Py.LF fields ->
  free_of Py.CR fields ->
  terminator ∈ [Py.nl; Py.cr; Py.crnl] ->
  files st !! fixed_width_filename (encoding_props st)
  = Some (fixed_width_line side fields (offsets (encoding_props st)) +:+ terminator) ->
  (parse_fixed_width_file st).2 = inr [fields].
Proof.
  intros Hfit Hsp Hlf Hcr Hterm Hfile.
  rewrite (parse_fixed_width_file_run st _ Hfile).
  rewrite lines_of_one_line; [| by apply contains_fixed_width_line..| done].
  simpl. rewrite parse_line_newline, parse_line_fixed_width_line by done.
  done.
Qed.

(** C5: for non-negative widths and a line whose length, newline stripped,
    is the sum of the widths, the decoded record has one field per column,
    and field [i] is the run of [widths[i]] characters starting at
    [sum(widths[0:i])] with every space character removed. *)
Theorem C5_field_is_column_without_spaces offsets line :
  Forall (λ w, 0 ≤ w) offsets ->
  Py.len (Py.replace_char Py.LF line) = Py.sum offsets ->
  exists fields,
    parse_line offsets line = inr fields
    ∧ length fields = length offsets
    ∧ forall i w, offsets !! i = Some w ->
        exists field,
          fields !! i = Some field
          ∧ list_ascii_of_string field
            = filter (λ c, c ≠ Py.SPACE)
                (list_ascii_of_string
                   (String.substring (Z.to_nat (Py.sum (take i offsets)))
                      (Z.to_nat w) (Py.replace_char Py.LF line))).
Proof.
  intros Hall Hlen. eexists. split; [by apply parse_line_ok|].
  split; [apply length_imap|].
  intros i w Hi. eexists. split.
  - apply (parse_line_field offsets line _ i w Hall); [|done].
    by apply parse_line_ok.
  - apply replace_char_filter.
Qed.

(** C6 (amended): validation compares only the lengths of the two arrays.
    Once the spec file has loaded, the terminator is legal and every offset
    converts to an integer, the constructor raises the mismatch error when
    the lengths differ; when they are equal and both encodings are the
    supported literals it returns a configuration holding the names and the
    widths as given, whatever their number and whatever the signs of the
    widths. *)
Theorem C6_only_lengths_are_compared st sf ff df d text spec ints :
  files st !! sf = Some text ->
  json_loads rt (universal_newlines false text) = Some spec ->
  d ∈ legal_newlines ->
  map_int (Offsets spec) = inr ints ->
  let outcome := new_EncodingProperties rt sf ff df d st in
  (length (ColumnNames spec) ≠ length ints -> outcome.2 = inl SpecMismatchError)
  ∧ (length (ColumnNames spec) = length ints ->
     FixedWidthEncoding spec = "windows-1252" ->
     DelimitedEncoding spec = "utf-8" ->
     exists self,
       outcome.2 = inr self
       ∧ column_names self = ColumnNames spec ∧ offsets self = ints).
Proof.
  intros Hfile Hjson Hd Hints outcome. unfold outcome. run_init.
  rewrite Hfile. simpl. rewrite Hjson. simpl.
  rewrite bool_decide_eq_false_2 by (by intros H; apply H).
  simpl. rewrite Hints. simpl. split.
  - intros Hne. by rewrite bool_decide_eq_true_2.
  - intros Heq Hfw Hde. rewrite bool_decide_eq_false_2 by (by intros H; apply H).
    simpl. rewrite Hfw, Hde. simpl.
    destruct (bool_decide (IncludeHeader spec = "True")); simpl; eauto.
Qed.

(** C7: for each of the legal terminator settings, on a host whose native
    line ending is a line feed or a carriage return followed by one, the
    encoder writes one text per row, the header row first when enabled;
    every such text ends with the terminator and does not end with it twice.
    The terminator is the setting itself for the three newlines and the
    host's line ending when the setting is unset or empty; that choice is
    made while encoding: the constructor stores the setting as given and the
    encoder leaves the stored setting as it was. *)
Theorem C7_rows_end_with_terminator st (delimited_data : list (list string)) :
  delimited_newline (encoding_props st) ∈ legal_newlines ->
  os_linesep rt ∈ [Py.nl; Py.crnl] ->
  delimited_filename (encoding_props st) ∉ unwritable st ->
  let self := encoding_props st in
  let t := resolve_newline rt (delimited_newline self) in
  let texts := Csv.row_text t <$> rows_written self delimited_data in
  let outcome := generate_delimited_file rt delimited_data st in
  (delimited_newline self ∈ [None; Some EmptyString] -> t = os_linesep rt)
  ∧ (forall s, s ∈ [Py.nl; Py.cr; Py.crnl] -> delimited_newline self = Some s -> t = s)
  ∧ outcome.2 = inr tt
  ∧ log outcome.1
    = log st
      ++ EOpen (delimited_filename self) "w" (Some (delimited_encoding self))
           (Some EmptyString)
      :: (EWrite (delimited_filename self) <$> texts)
  ∧ files outcome.1 !! delimited_filename self = Some (concat_texts texts)
  ∧ Forall (λ text, ends_with t text ∧ ¬ ends_with (t +:+ t) text) texts
  ∧ delimited_newline (encoding_props outcome.1) = delimited_newline self
  ∧ (forall st0 sf ff df d st1,
       EncodingProperties_init rt sf ff df d st0 = (st1, inr tt) ->
       delimited_newline (encoding_props st1) = d).
Proof.
  intros Hd Hsep Hw. cbv zeta.
  destruct (generate_delimited_file_run rt st delimited_data Hw)
    as (st' & Hrun & Hself & Hlog & Hfiles).
  rewrite Hrun. cbv zeta in Hlog, Hfiles. simpl fst. simpl snd.
  set (d := delimited_newline (encoding_props st)) in *.
  assert (resolve_newline rt d ∈ [Py.nl; Py.cr; Py.crnl]) as Ht.
  { unfold resolve_newline, legal_newlines in *.
    rewrite !elem_of_cons, elem_of_nil in Hd.
    rewrite !elem_of_cons, elem_of_nil in Hsep. rewrite !elem_of_cons.
    destruct Hd as [->|[->|[->|[->|[->|[]]]]]]; simpl;
      destruct Hsep as [Hs|[Hs|[]]]; rewrite ?Hs; auto. }
  split; [|split; [|split; [|split; [|split; [|split; [|split]]]]]].
  - unfold resolve_newline. rewrite !elem_of_cons, elem_of_nil.
    by intros [->|[->|[]]].
  - intros s Hs ->. unfold resolve_newline.
    rewrite !elem_of_cons, elem_of_nil in Hs.
    by destruct Hs as [->|[->|[->|[]]]].
  - done.
  - done.
  - rewrite Hfiles. apply lookup_insert_eq.
  - apply Forall_fmap, Forall_forall. intros row _. simpl. split.
    + apply row_text_ends_with.
    + by apply row_text_terminated_once.
  - unfold d. by rewrite Hself.
  - apply init_keeps_newline.
Qed.

(** C8 (amended): with the spec file loaded, any exception the constructor
    raises is the illegal-newline error naming the terminator, the integer
    conversion error for one of the offsets, the length-mismatch error, or
    an unsupported-encoding error naming the encoding; the newline and
    encoding messages determine the value they name.  The length-mismatch
    error and the width error of the decoder carry one fixed message each:
    the decoder's error is the same whatever the line. *)
Theorem C8_which_errors_name_the_value st sf ff df d text spec offsets line :
  files st !! sf = Some text ->
  json_loads rt (universal_newlines false text) = Some spec ->
  (forall e, (EncodingProperties_init rt sf ff df d st).2 = inl e ->
     (exists value, d = Some value ∧ e = IllegalTerminatorError value)
     ∨ (exists literal, PStr literal ∈ Offsets spec ∧ e = IntLiteralError literal)
     ∨ e = SpecMismatchError
     ∨ (FixedWidthEncoding spec ≠ "windows-1252"
        ∧ e = UnsupportedSourceEncodingError (FixedWidthEncoding spec))
     ∨ (DelimitedEncoding spec ≠ "utf-8"
        ∧ e = UnsupportedTargetEncodingError (DelimitedEncoding spec)))
  ∧ (forall e, parse_line offsets line = inl e -> e = RecordWidthError)
  ∧ (forall v v', IllegalTerminatorError v = IllegalTerminatorError v' -> v = v')
  ∧ (forall v v',
       UnsupportedSourceEncodingError v = UnsupportedSourceEncodingError v' -> v = v')
  ∧ (forall v v',
       UnsupportedTargetEncodingError v = UnsupportedTargetEncodingError v' -> v = v').
Proof.
  intros Hfile Hjson. split; [|split; [|split; [|split]]].
  - intros e. run_init. rewrite Hfile. simpl. rewrite Hjson. simpl.
    case_bool_decide as Hd; simpl.
    { intros [= <-]. left. destruct (illegal_newline_is_string d Hd) as [v ->].
      by exists v. }
    destruct (map_int (Offsets spec)) as [e'|ints] eqn:Hints; simpl.
    { intros [= <-]. right; left. by apply map_int_error. }
    case_bool_decide; simpl.
    { intros [= <-]. by right; right; left. }
    destruct (bool_decide (IncludeHeader spec = "True")); simpl.
    all: case_bool_decide as Hfw; simpl;
      [intros [= <-]; by right; right; right; left|].
    all: case_bool_decide as Hde; simpl;
      [intros [= <-]; by right; right; right; right|].
    all: done.
  - apply parse_line_error.
  - unfold IllegalTerminatorError. intros v v' [= H]. done.
  - unfold UnsupportedSourceEncodingError, fixed_width_encoding_message.
    intros v v' [= H]. by apply append_cancel_r in H.
  - unfold UnsupportedTargetEncodingError, delimited_encoding_message.
    intros v v' [= H]. by apply append_cancel_r in H.
Qed.

(** C9: decoding, encoding, and decoding followed by encoding each leave
    every attribute of the configuration object as it was, on the paths
    that raise as well; the terminator chosen while encoding is not stored. *)
Theorem C9_configuration_unchanged st (delimited_data : list (list string)) :
  encoding_props (parse_fixed_width_file st).1 = encoding_props st
  ∧ encoding_props (generate_delimited_file rt delimited_data st).1
    = encoding_props st
  ∧ encoding_props
      ((let* data := parse_fixed_width_file in generate_delimited_file rt data) st).1
    = encoding_props st.
Proof.
  split; [apply parse_fixed_width_file_self|].
  split; [apply generate_delimited_file_self|].
  unfold bind. pose proof (parse_fixed_width_file_self st) as Hparse.
  destruct (parse_fixed_width_file st) as [st1 [e|data]]; [done|].
  rewrite generate_delimited_file_self. done.
Qed.

(** C10: a configuration the constructor returns holds the codec names
    [cp1252] and [UTF-8], not the literals [windows-1252] and [utf-8] the
    spec document has to carry. *)
Theorem C10_encodings_are_normalised st sf ff df d st' self :
  new_EncodingProperties rt sf ff df d st = (st', inr self) ->
  fixed_width_encoding self = "cp1252" ∧ delimited_encoding self = "UTF-8"
  ∧ fixed_width_encoding self ≠ "windows-1252" ∧ delimited_encoding self ≠ "utf-8".
Proof.
  run_init. intros H.
  repeat (case_match; simplify_eq/=); done.
Qed.

End Claims.

(** * The claims on concrete inputs *)

Lemma tab_is_illegal : Some tab ∉ legal_newlines.
Proof.
  unfold legal_newlines. rewrite !elem_of_cons, elem_of_nil.
  intros [H|[H|[H|[H|[H|[]]]]]]; discriminate H.
Defined.

(** The 6-character line of the example is rejected for the widths 3 and 2:
    the run raises the width error and writes no output file. *)
Lemma C1_six_character_line_rejected :
  Py.len "abc 1 " = 6 ∧ Py.sum [3; 2] = 5
  ∧ parse_line [3; 2] "abc 1 " = inl RecordWidthError
  ∧ parse_line [3; 2] "abc 1 " ≠ inr ["abc"; "1"]
  ∧ (let outcome :=
       run_pipeline posix "spec.json" "fixed_width.txt" "delimited.txt"
         (Some Py.nl) (disk spec_AB ("abc 1 " +:+ Py.nl)) in
     outcome.2 = inl RecordWidthError
     ∧ files outcome.1 !! "delimited.txt" = None).
Proof. repeat split; try (vm_compute; reflexivity). vm_compute. discriminate. Qed.

(** With a tab as terminator the constructor first opens the spec file:
    when that file is missing the failure is the one of [open], and when it
    is there the trace already holds the call by the time the newline error
    is raised. *)
Lemma C2_spec_file_opened_before_check :
  (Some tab ∉ legal_newlines)
  ∧ (let outcome :=
       EncodingProperties_init posix "spec.json" "fixed_width.txt"
         "delimited.txt" (Some tab) (initial []) in
     outcome.2 = inl (OSError "spec.json")
     ∧ log outcome.1 = [EOpen "spec.json" "r" None None])
  ∧ (let outcome :=
       EncodingProperties_init posix "spec.json" "fixed_width.txt"
         "delimited.txt" (Some tab) (disk spec_AB EmptyString) in
     outcome.2 = inl (IllegalTerminatorError tab)
     ∧ log outcome.1 = [EOpen "spec.json" "r" None None]).
Proof. split; [exact tab_is_illegal|]. repeat split; vm_compute; reflexivity. Qed.

Lemma C2_witness :
  let outcome :=
    EncodingProperties_init posix "spec.json" "fixed_width.txt"
      "delimited.txt" (Some tab) (disk spec_AB EmptyString) in
  log outcome.1 = [EOpen "spec.json" "r" None None]
  ∧ files outcome.1 = files (disk spec_AB EmptyString)
  ∧ (exists value, Some tab = Some value ∧ outcome.2 = inl (IllegalTerminatorError value))
  ∧ IllegalTerminatorError tab = ValueError ("Illegal newline value: " +:+ tab).
Proof.
  destruct (C2_illegal_newline_raised_after_spec_load posix
              (disk spec_AB EmptyString) "spec.json" "fixed_width.txt"
              "delimited.txt" (Some tab) tab_is_illegal)
    as (Hlog & Hfiles & Hraise).
  split; [exact Hlog|]. split; [exact Hfiles|]. split; [|reflexivity].
  apply (Hraise (spec_text spec_AB) spec_AB); vm_compute; reflexivity.
Defined.

Lemma C3_witness :
  (parse_fixed_width_file
     (configured None
        ("abc1 " +:+ Py.cr +:+ "xy" +:+ Py.crnl +:+ "abcd " +:+ Py.nl))).2
  = inl RecordWidthError.
Proof.
  rewrite (C3_malformed_line_aborts_decode _
             ("abc1 " +:+ Py.cr +:+ "xy" +:+ Py.crnl +:+ "abcd " +:+ Py.nl)
             ["abc1 " +:+ Py.nl] ("xy" +:+ Py.nl) ["abcd " +:+ Py.nl]).
  - reflexivity.
  - vm_compute. reflexivity.
  - vm_compute. reflexivity.
  - vm_compute. discriminate.
Defined.

(** A field holding a line feed satisfies what the round trip asks of it
    and is not recovered: with the line feed stripped the line is one
    character short.  A field holding a carriage return splits the line
    when it is read from the file. *)
Lemma C4_line_break_in_field :
  let with_lf := ["a" +:+ Py.nl +:+ "b"; "c"] in
  let with_cr := ["a" +:+ Py.cr +:+ "b"; "c"] in
  fits with_lf [3; 2] ∧ free_of Py.SPACE with_lf
  ∧ parse_line [3; 2] (fixed_width_line JLeft with_lf [3; 2]) = inl RecordWidthError
  ∧ fits with_cr [3; 2] ∧ free_of Py.SPACE with_cr
  ∧ (parse_fixed_width_file
       (configured None (fixed_width_line JLeft with_cr [3; 2] +:+ Py.nl))).2
    = inl RecordWidthError.
Proof.
  cbv zeta. unfold fits, free_of.
  repeat split; repeat constructor; try (vm_compute; reflexivity);
    vm_compute; discriminate.
Qed.

Lemma C4_witness :
  (parse_fixed_width_file
     (configured None (fixed_width_line JRight ["ab"; "1"] [3; 2] +:+ Py.crnl))).2
  = inr [["ab"; "1"]].
Proof.
  apply (C4_round_trip _ JRight ["ab"; "1"] Py.crnl).
  - repeat constructor; vm_compute; discriminate.
  - repeat constructor.
  - repeat constructor.
  - repeat constructor.
  - rewrite !elem_of_cons. auto.
  - vm_compute. reflexivity.
Defined.

Lemma C5_witness :
  exists fields,
    parse_line [3; 2; 4] ("a c" +:+ " 1" +:+ "x  y" +:+ Py.nl) = inr fields
    ∧ fields !! 2%nat = Some "xy".
Proof.
  destruct (C5_field_is_column_without_spaces [3; 2; 4]
              ("a c" +:+ " 1" +:+ "x  y" +:+ Py.nl))
    as (fields & Hparse & Hlen & Hfield).
  - repeat constructor; lia.
  - vm_compute. reflexivity.
  - exists fields. split; [exact Hparse|].
    destruct (Hfield 2%nat 4 eq_refl) as (field & Hlookup & Hchars).
    rewrite Hlookup. f_equal. apply list_of_inj. rewrite Hchars.
    vm_compute. reflexivity.
Defined.

(** A spec document with no column at all, and one with a zero and a
    negative width, both yield a configuration. *)
Lemma C6_empty_and_nonpositive_specs_accepted :
  (new_EncodingProperties posix "spec.json" "fixed_width.txt" "delimited.txt"
     None (disk spec_empty EmptyString)).2
  = inr {| spec_filename := "spec.json";
           fixed_width_filename := "fixed_width.txt";
           delimited_filename := "delimited.txt";
           delimited_newline := None;
           column_names := [];
           offsets := [];
           fixed_width_encoding := "cp1252";
           delimited_encoding := "UTF-8";
           include_header := true |}
  ∧ (new_EncodingProperties posix "spec.json" "fixed_width.txt" "delimited.txt"
       None (disk spec_nonpositive EmptyString)).2
    = inr {| spec_filename := "spec.json";
             fixed_width_filename := "fixed_width.txt";
             delimited_filename := "delimited.txt";
             delimited_newline := None;
             column_names := ["A"; "B"];
             offsets := [0; -3];
             fixed_width_encoding := "cp1252";
             delimited_encoding := "UTF-8";
             include_header := false |}.
Proof. split; vm_compute; reflexivity. Qed.

Lemma C6_witness :
  (new_EncodingProperties posix "spec.json" "fixed_width.txt" "delimited.txt"
     None (disk spec_three_two EmptyString)).2
  = inl SpecMismatchError
  ∧ exists self,
      (new_EncodingProperties posix "spec.json" "fixed_width.txt"
         "delimited.txt" None (disk spec_nonpositive EmptyString)).2
      = inr self
      ∧ column_names self = ["A"; "B"] ∧ offsets self = [0; -3].
Proof.
  split.
  - apply (C6_only_lengths_are_compared posix (disk spec_three_two EmptyString)
             "spec.json" "fixed_width.txt" "delimited.txt" None
             (spec_text spec_three_two) spec_three_two [3; 2]).
    + vm_compute. reflexivity.
    + vm_compute. reflexivity.
    + unfold legal_newlines. rewrite elem_of_cons. by left.
    + vm_compute. reflexivity.
    + vm_compute. discriminate.
  - apply (C6_only_lengths_are_compared posix (disk spec_nonpositive EmptyString)
             "spec.json" "fixed_width.txt" "delimited.txt" None
             (spec_text spec_nonpositive) spec_nonpositive [0; -3]).
    + vm_compute. reflexivity.
    + vm_compute. reflexivity.
    + unfold legal_newlines. rewrite elem_of_cons. by left.
    + vm_compute. reflexivity.
    + reflexivity.
    + reflexivity.
    + reflexivity.
Defined.

Lemma C7_witness :
  let st := configured None EmptyString in
  let outcome := generate_delimited_file windows [["abc"; "1"]; ["x,y"; ""]] st in
  outcome.2 = inr tt
  ∧ files outcome.1 !! "delimited.txt"
    = Some ("A,B" +:+ Py.crnl +:+ "abc,1" +:+ Py.crnl
            +:+ json_string "x,y" +:+ "," +:+ Py.crnl)
  ∧ delimited_newline (encoding_props outcome.1) = None.
Proof.
  cbv zeta.
  destruct (C7_rows_end_with_terminator windows (configured None EmptyString)
              [["abc"; "1"]; ["x,y"; ""]])
    as (_ & _ & Hok & _ & Hfile & _ & Hkept & _).
  - unfold legal_newlines. rewrite elem_of_cons. by left.
  - rewrite !elem_of_cons. auto.
  - vm_compute. discriminate.
  - split; [exact Hok|]. split; [|exact Hkept].
    change (delimited_filename (encoding_props (configured None EmptyString)))
      with "delimited.txt" in Hfile.
    rewrite Hfile. vm_compute. reflexivity.
Defined.

(** Two different malformed lines, and two files whose malformed line is a
    different one at a different place, raise one and the same exception;
    so does every mismatch between names and offsets.  Neither message
    holds anything of the input. *)
Lemma C8_width_error_does_not_identify_the_line :
  "ab" ≠ "abcdefg"
  ∧ parse_line [3; 2] "ab"
    = inl (ValueError "One or more fields are of incorrect length")
  ∧ parse_line [3; 2] "abcdefg"
    = inl (ValueError "One or more fields are of incorrect length")
  ∧ (parse_fixed_width_file (configured None ("ab" +:+ Py.nl +:+ "abc1 " +:+ Py.nl))).2
    = (parse_fixed_width_file
         (configured None ("abc1 " +:+ Py.nl +:+ "abcdefg" +:+ Py.nl))).2
  ∧ (parse_fixed_width_file (configured None ("ab" +:+ Py.nl +:+ "abc1 " +:+ Py.nl))).2
    = inl (ValueError "One or more fields are of incorrect length")
  ∧ (EncodingProperties_init posix "spec.json" "fixed_width.txt" "delimited.txt"
       None (disk spec_three_two EmptyString)).2
    = inl (ValueError "The number of column names and offsets do not match").
Proof. repeat split; try (vm_compute; reflexivity). discriminate. Qed.

Lemma C8_witness :
  (EncodingProperties_init posix "spec.json" "fixed_width.txt" "delimited.txt"
     None (disk spec_latin1 EmptyString)).2
  = inl (ValueError
           "latin-1 is either not a valid encoding, or it has not been implemented.")
  ∧ UnsupportedSourceEncodingError "latin-1"
    = ValueError
        "latin-1 is either not a valid encoding, or it has not been implemented."
  ∧ forall e, parse_line [3; 2] "ab" = inl e -> e = RecordWidthError.
Proof.
  destruct (C8_which_errors_name_the_value posix (disk spec_latin1 EmptyString)
              "spec.json" "fixed_width.txt" "delimited.txt" None
              (spec_text spec_latin1) spec_latin1 [3; 2] "ab")
    as (_ & Hwidth & _).
  - vm_compute. reflexivity.
  - vm_compute. reflexivity.
  - split; [vm_compute; reflexivity|]. split; [reflexivity | exact Hwidth].
Defined.

Lemma C10_witness :
  fixed_width_encoding (props_AB None) = "cp1252"
  ∧ delimited_encoding (props_AB None) = "UTF-8"
  ∧ fixed_width_encoding (props_AB None) ≠ "windows-1252"
  ∧ delimited_encoding (props_AB None) ≠ "utf-8".
Proof.
  apply (C10_encodings_are_normalised posix (disk spec_AB EmptyString)
           "spec.json" "fixed_width.txt" "delimited.txt" None
           (new_EncodingProperties posix "spec.json" "fixed_width.txt"
              "delimited.txt" None (disk spec_AB EmptyString)).1).
  vm_compute. reflexivity.
Defined.

(** * Further properties of the package *)

(** ** The constructor *)

Section MoreConstruction.

Variable rt : runtime.

Implicit Types (st : state) (sf ff df : string) (d : option string)
  (spec : spec_document) (e : exn).

(** The first offset that is no integer is the one [int] raises on. *)
Lemma map_int_first_bad (good : list pyval) literal (rest : list pyval) :
  Forall (λ v, exists z, py_int v = inr z) good ->
  PyInt.of_string literal = None ->
  map_int (good ++ PStr literal :: rest) = inl (IntLiteralError literal).
Proof.
  intros Hgood Hbad. induction Hgood as [|v good [z Hz] _ IH]; simpl.
  - by rewrite Hbad.
  - by rewrite Hz, IH.
Qed.

(** X1: the constructor returns a configuration exactly when the spec file
    can be read and parsed, the newline is legal, every offset converts to
    an integer, there are as many names as offsets and the two encodings
    are the supported literals; the configuration then holds the arguments,
    the names, the converted offsets, the two codec names, and a header
    flag that is set only for the literal [True]. *)
Theorem X1_construction_succeeds_iff st sf ff df d (self : EncodingProperties) :
  (new_EncodingProperties rt sf ff df d st).2 = inr self
  <-> exists text spec ints,
        files st !! sf = Some text
        ∧ json_loads rt (universal_newlines false text) = Some spec
        ∧ d ∈ legal_newlines
        ∧ map_int (Offsets spec) = inr ints
        ∧ length (ColumnNames spec) = length ints
        ∧ FixedWidthEncoding spec = "windows-1252"
        ∧ DelimitedEncoding spec = "utf-8"
        ∧ self = {| spec_filename := sf;
                    fixed_width_filename := ff;
                    delimited_filename := df;
                    delimited_newline := d;
                    column_names := ColumnNames spec;
                    offsets := ints;
                    fixed_width_encoding := "cp1252";
                    delimited_encoding := "UTF-8";
                    include_header := bool_decide (IncludeHeader spec = "True") |}.
Proof.
  split.
  - run_init. destruct (files st !! sf) as [text|] eqn:Hfile; [|done]. simpl.
    destruct (json_loads rt (universal_newlines false text)) as [spec|] eqn:Hjson;
      [|done]. simpl.
    case_bool_decide as Hd; [done|]. simpl.
    destruct (map_int (Offsets spec)) as [e|ints] eqn:Hints; [done|]. simpl.
    case_bool_decide as Hlen; [done|]. simpl.
    intros H. exists text, spec, ints.
    destruct (bool_decide (IncludeHeader spec = "True")) eqn:Hh; simpl in H.
    all: case_bool_decide as Hfw; [done|]; simpl in H.
    all: case_bool_decide as Hde; [done|]; simpl in H.
    all: injection H as <-.
    all: repeat split; try done.
    all: by apply dec_stable.
  - intros (text & spec & ints & Hfile & Hjson & Hd & Hints & Hlen & Hfw & Hde & ->).
    run_init. rewrite Hfile. simpl. rewrite Hjson. simpl.
    rewrite bool_decide_eq_false_2 by (by intros H; apply H). simpl.
    rewrite Hints. simpl.
    rewrite bool_decide_eq_false_2 by (by intros H; apply H). simpl.
    rewrite Hfw, Hde.
    destruct (bool_decide (IncludeHeader spec = "True")); reflexivity.
Qed.

(** X2: when several things are wrong the constructor reports the first
    in this order: the spec file cannot be opened; it is no JSON document;
    the newline is illegal; an offset is no integer (the first such one);
    names and offsets differ in number; the fixed width encoding is not
    supported; the delimited encoding is not supported. *)
Theorem X2_first_failing_check_decides st sf ff df d :
  let r := (EncodingProperties_init rt sf ff df d st).2 in
  (files st !! sf = None -> r = inl (OSError sf))
  ∧ (forall text,
       files st !! sf = Some text ->
       json_loads rt (universal_newlines false text) = None ->
       r = inl JSONDecodeError)
  ∧ (forall text spec,
       files st !! sf = Some text ->
       json_loads rt (universal_newlines false text) = Some spec ->
       (d ∉ legal_newlines -> r = inl (ValueError (illegal_newline_message d)))
       ∧ (d ∈ legal_newlines ->
          (forall good literal rest,
             Offsets spec = good ++ PStr literal :: rest ->
             Forall (λ v, exists z, py_int v = inr z) good ->
             PyInt.of_string literal = None ->
             r = inl (IntLiteralError literal))
          ∧ (forall ints,
               map_int (Offsets spec) = inr ints ->
               (length (ColumnNames spec) ≠ length ints ->
                r = inl (ValueError mismatch_message))
               ∧ (length (ColumnNames spec) = length ints ->
                  (FixedWidthEncoding spec ≠ "windows-1252" ->
                   r = inl (ValueError
                              (fixed_width_encoding_message (FixedWidthEncoding spec))))
                  ∧ (FixedWidthEncoding spec = "windows-1252" ->
                     DelimitedEncoding spec ≠ "utf-8" ->
                     r = inl (ValueError
                                (delimited_encoding_message (DelimitedEncoding spec)))))))).
Proof.
  cbv zeta. split; [|split].
  - intros Hfile. run_init. by rewrite Hfile.
  - intros text Hfile Hjson. run_init. rewrite Hfile. simpl. by rewrite Hjson.
  - intros text spec Hfile Hjson. split.
    + intros Hd. run_init. rewrite Hfile. simpl. rewrite Hjson. simpl.
      by rewrite bool_decide_eq_true_2.
    + intros Hd. split.
      * intros good literal rest Hoff Hgood Hbad.
        run_init. rewrite Hfile. simpl. rewrite Hjson. simpl.
        rewrite bool_decide_eq_false_2 by (by intros H; apply H). simpl.
        by rewrite Hoff, map_int_first_bad.
      * intros ints Hints. split; [|intros Hlen; split].
        -- intros Hlen. run_init. rewrite Hfile. simpl. rewrite Hjson. simpl.
           rewrite bool_decide_eq_false_2 by (by intros H; apply H). simpl.
           rewrite Hints. simpl. by rewrite bool_decide_eq_true_2.
        -- intros Hfw. run_init. rewrite Hfile. simpl. rewrite Hjson. simpl.
           rewrite bool_decide_eq_false_2 by (by intros H; apply H). simpl.
           rewrite Hints. simpl.
           rewrite bool_decide_eq_false_2 by (by intros H; apply H). simpl.
           destruct (bool_decide (IncludeHeader spec = "True")); simpl;
             by rewrite bool_decide_eq_true_2.
        -- intros Hfw Hde. run_init. rewrite Hfile. simpl. rewrite Hjson. simpl.
           rewrite bool_decide_eq_false_2 by (by intros H; apply H). simpl.
           rewrite Hints. simpl.
           rewrite bool_decide_eq_false_2 by (by intros H; apply H). simpl.
           rewrite Hfw.
           destruct (bool_decide (IncludeHeader spec = "True")); simpl;
             by rewrite bool_decide_eq_true_2.
Qed.

End MoreConstruction.

(** ** The decoder *)

Section MoreDecode.

Implicit Types (st : state) (offsets : list Z) (line text t : string)
  (lines : list string) (records : list (list string)) (c : ascii).

(** *** What stays out of a string *)

Lemma contains_replace_char_same c s : Py.contains c (Py.replace_char c s) = false.
Proof.
  induction s as [|c' s IH]; [done|]. simpl.
  destruct (decide (c' = c)); [done|]. simpl.
  by rewrite IH, bool_decide_eq_false_2.
Qed.

Lemma contains_replace_char c c' s :
  Py.contains c s = false -> Py.contains c (Py.replace_char c' s) = false.
Proof.
  induction s as [|c'' s IH]; [done|]. simpl. intros H.
  apply orb_false_elim in H as [H1 H2].
  destruct (decide (c'' = c')); [by apply IH|]. simpl. by rewrite H1, IH.
Qed.

Lemma contains_str_drop c n s :
  Py.contains c s = false -> Py.contains c (Py.str_drop n s) = false.
Proof.
  revert s. induction n as [|n IH]; intros [|c' s]; simpl; try done.
  intros H. apply orb_false_elim in H as [_ H]. by apply IH.
Qed.

Lemma contains_str_take c n s :
  Py.contains c s = false -> Py.contains c (Py.str_take n s) = false.
Proof.
  revert s. induction n as [|n IH]; intros [|c' s]; simpl; try done.
  intros H. apply orb_false_elim in H as [H1 H2]. by rewrite H1, IH.
Qed.

Lemma contains_slice c s (a b : Z) :
  Py.contains c s = false -> Py.contains c (Py.slice s a b) = false.
Proof. intros H. unfold Py.slice. by apply contains_str_take, contains_str_drop. Qed.

Lemma contains_universal_newlines b s :
  Py.contains Py.CR (universal_newlines b s) = false.
Proof.
  revert b. induction s as [|c s IH]; intros b; [done|]. simpl.
  destruct (decide (c = Py.CR)); [simpl; by rewrite IH|].
  destruct (decide (c = Py.LF)).
  - destruct b; [apply IH|]. simpl. by rewrite IH.
  - simpl. by rewrite IH, bool_decide_eq_false_2.
Qed.

Lemma contains_iter_lines c cur s :
  c ≠ Py.LF ->
  Py.contains c cur = false -> Py.contains c s = false ->
  Forall (λ line, Py.contains c line = false) (iter_lines cur s).
Proof.
  intros Hc. revert cur. induction s as [|c' s IH]; intros cur Hcur Hs; simpl.
  - destruct (decide _); by repeat constructor.
  - simpl in Hs. apply orb_false_elim in Hs as [Hc' Hs].
    destruct (decide (c' = Py.LF)).
    + constructor; [|by apply IH].
      rewrite contains_append, Hcur. simpl.
      rewrite bool_decide_eq_false_2; [done|]. congruence.
    + apply IH; [|done]. rewrite contains_append, Hcur. simpl. by rewrite Hc'.
Qed.

(** The fields of a decoded line hold no space and no line feed, and no
    carriage return when the line has none. *)
Lemma parse_line_bare offsets line (record : list string) :
  Py.contains Py.CR line = false ->
  parse_line offsets line = inr record -> Forall bare record.
Proof.
  intros Hcr. unfold parse_line. case_bool_decide; [done|]. intros [= <-].
  apply Forall_forall. intros field Hin.
  apply list_elem_of_lookup in Hin as [i Hi].
  rewrite list_lookup_imap in Hi.
  destruct (offsets !! i) as [w|]; [|done]. injection Hi as <-.
  split; [apply contains_replace_char_same|].
  split; apply contains_replace_char, contains_slice.
  - apply contains_replace_char_same.
  - by apply contains_replace_char.
Qed.

Lemma parse_line_length offsets line (record : list string) :
  parse_line offsets line = inr record -> length record = length offsets.
Proof.
  unfold parse_line. case_bool_decide; [done|]. intros [= <-]. apply length_imap.
Qed.

(** *** The loop over the lines *)

Lemma parse_lines_spec offsets lines (acc records : list (list string)) :
  parse_lines offsets lines acc = inr records
  <-> exists new,
        records = acc ++ new
        ∧ Forall2 (λ line record, parse_line offsets line = inr record) lines new.
Proof.
  revert acc. induction lines as [|line lines IH]; intros acc; simpl.
  - split.
    + intros [= <-]. exists []. by rewrite app_nil_r.
    + intros (new & -> & Hnew). apply Forall2_nil_inv_l in Hnew as ->.
      by rewrite app_nil_r.
  - destruct (parse_line offsets line) as [e|record] eqn:Hline.
    + split; [done|]. intros (new & _ & Hnew).
      apply Forall2_cons_inv_l in Hnew as (r & new' & Hr & _ & _). congruence.
    + rewrite IH. split.
      * intros (new & -> & Hnew). exists (record :: new).
        split; [by rewrite <- app_assoc|]. by constructor.
      * intros (new & -> & Hnew).
        apply Forall2_cons_inv_l in Hnew as (r & new' & Hr & Hnew' & ->).
        assert (r = record) as -> by congruence.
        exists new'. split; [by rewrite <- app_assoc | done].
Qed.

(** X3: when the fixed width file can be read, the decode returns
    [records] exactly when there is one record per logical line, in the
    order of the lines, each being what the loop body makes of its line;
    every record then has one field per column. *)
Theorem X3_one_record_per_line st text records :
  files st !! fixed_width_filename (encoding_props st) = Some text ->
  let lines := iter_lines EmptyString (universal_newlines false text) in
  let offsets := offsets (encoding_props st) in
  ((parse_fixed_width_file st).2 = inr records
   <-> Forall2 (λ line record, parse_line offsets line = inr record) lines records)
  ∧ ((parse_fixed_width_file st).2 = inr records ->
     length records = length lines
     ∧ Forall (λ record, length record = length offsets) records).
Proof.
  intros Hfile lines offsets.
  rewrite (parse_fixed_width_file_run st text Hfile). simpl.
  fold lines offsets. rewrite parse_lines_spec.
  assert ((exists new, records = [] ++ new
                       ∧ Forall2 (λ line record, parse_line offsets line = inr record)
                           lines new)
          <-> Forall2 (λ line record, parse_line offsets line = inr record)
                lines records) as Hiff.
  { split; [by intros (new & -> & H) | intros H; by exists records]. }
  split; [exact Hiff|].
  intros H. apply Hiff in H. split.
  - symmetry. by eapply Forall2_length.
  - clear Hiff. induction H as [|line record ls rs Hr _ IH]; constructor; [|done].
    by eapply parse_line_length.
Qed.

Lemma parse_fixed_width_file_bare st records :
  (parse_fixed_width_file st).2 = inr records ->
  Forall (Forall bare) records.
Proof.
  unfold parse_fixed_width_file, open_read, bind, get_self, emit, lift. simpl.
  destruct (files st !! _) as [text|]; [|done]. simpl.
  rewrite parse_lines_spec. intros (new & -> & Hnew). simpl.
  assert (Forall (λ line, Py.contains Py.CR line = false)
            (iter_lines EmptyString (universal_newlines false text))) as Hcr.
  { apply contains_iter_lines; [done|done|apply contains_universal_newlines]. }
  induction Hnew as [|line record ls rs Hr _ IH]; [constructor|].
  apply Forall_cons in Hcr as [Hline Hcr].
  constructor; [by eapply parse_line_bare | by apply IH].
Qed.

(** X4: no field the decode returns holds a space, a line feed or a
    carriage return. *)
Theorem X4_decoded_fields_are_bare st records :
  (parse_fixed_width_file st).2 = inr records ->
  Forall (Forall bare) records.
Proof. apply parse_fixed_width_file_bare. Qed.

End MoreDecode.

Section Normalisation.

Implicit Types (st : state) (offsets : list Z) (line text t : string)
  (lines : list string) (c : ascii).

Lemma length_replace_char c s :
  (String.length (Py.replace_char c s) <= String.length s)%nat.
Proof.
  induction s as [|c' s IH]; [done|]. simpl.
  destruct (decide (c' = c)); simpl; lia.
Qed.

Lemma length_substring n m s : (String.length (String.substring n m s) <= m)%nat.
Proof.
  revert n m. induction s as [|c s IH]; intros [|n] [|m]; simpl; try lia.
  - specialize (IH 0%nat m). lia.
  - apply IH.
  - apply IH.
Qed.

Lemma parse_line_fits offsets line (record : list string) :
  Forall (λ w, 0 ≤ w) offsets ->
  parse_line offsets line = inr record -> fits record offsets.
Proof.
  intros Hall Hparse. apply Forall2_same_length_lookup_2.
  { by eapply parse_line_length. }
  intros i field w Hfield Hw.
  rewrite (parse_line_field offsets line record i w Hall Hparse Hw) in Hfield.
  injection Hfield as <-.
  destruct (sum_take_bounds offsets i w Hall Hw) as (_ & Hw0 & _).
  unfold Py.len.
  pose proof (length_replace_char Py.SPACE
                (String.substring (Z.to_nat (Py.sum (take i offsets))) (Z.to_nat w)
                   (Py.replace_char Py.LF line))).
  pose proof (length_substring (Z.to_nat (Py.sum (take i offsets))) (Z.to_nat w)
                (Py.replace_char Py.LF line)).
  lia.
Qed.

Lemma parse_line_clean offsets line (record : list string) :
  parse_line offsets line = inr record ->
  free_of Py.SPACE record ∧ free_of Py.LF record.
Proof.
  unfold parse_line. case_bool_decide; [done|]. intros [= <-].
  split; apply Forall_forall; intros field Hin;
    apply list_elem_of_lookup in Hin as [i Hi];
    rewrite list_lookup_imap in Hi;
    (destruct (offsets !! i) as [w|]; [|done]); injection Hi as <-.
  - apply contains_replace_char_same.
  - apply contains_replace_char, contains_slice, contains_replace_char_same.
Qed.

(** X5: for non-negative widths, a decoded record fits its columns, and
    laying it out again (each field padded with spaces to its column, on
    either side) gives a line that decodes to the same record. *)
Theorem X5_decoded_record_lays_out_again offsets line (record : list string) side :
  Forall (λ w, 0 ≤ w) offsets ->
  parse_line offsets line = inr record ->
  fits record offsets
  ∧ parse_line offsets (fixed_width_line side record offsets) = inr record.
Proof.
  intros Hall Hparse.
  pose proof (parse_line_fits offsets line record Hall Hparse) as Hfits.
  destruct (parse_line_clean offsets line record Hparse) as [Hsp Hlf].
  split; [done|]. by apply parse_line_fixed_width_line.
Qed.

(** *** Newline conventions *)

Lemma text_of_lines_cons t line lines :
  text_of_lines t (line :: lines) = line +:+ t +:+ text_of_lines t lines.
Proof. unfold text_of_lines. simpl. by rewrite append_assoc. Qed.

Lemma universal_newlines_plain_any b line rest :
  line ≠ EmptyString -> unbroken line ->
  universal_newlines b (line +:+ rest) = line +:+ universal_newlines false rest.
Proof.
  intros Hne [Hcr Hlf]. destruct line as [|c line]; [done|].
  simpl in Hcr, Hlf.
  apply orb_false_elim in Hcr as [Hc1 Hcr]. apply orb_false_elim in Hlf as [Hc2 Hlf].
  apply bool_decide_eq_false in Hc1, Hc2.
  rewrite !append_cons. simpl.
  destruct (decide (c = Py.CR)); [done|]. destruct (decide (c = Py.LF)); [done|].
  by rewrite universal_newlines_plain.
Qed.

(** A terminator is read as a line feed; a carriage return leaves the
    reader waiting for the line feed that may complete it. *)
Lemma universal_newlines_terminator b t rest :
  t ∈ [Py.nl; Py.cr; Py.crnl] -> (b = true -> t = Py.cr) ->
  universal_newlines b (t +:+ rest)
  = Py.nl +:+ universal_newlines (bool_decide (t = Py.cr)) rest.
Proof.
  intros Ht Hb. rewrite !elem_of_cons, elem_of_nil in Ht.
  destruct Ht as [->|[->|[->|[]]]].
  - destruct b; [by specialize (Hb eq_refl)|]. reflexivity.
  - reflexivity.
  - reflexivity.
Qed.

Lemma universal_newlines_lines b t lines :
  t ∈ [Py.nl; Py.cr; Py.crnl] -> (b = true -> t = Py.cr) ->
  Forall unbroken lines ->
  universal_newlines b (text_of_lines t lines) = text_of_lines Py.nl lines.
Proof.
  intros Ht Hb Hlines. revert b Hb.
  induction Hlines as [|line lines Hline _ IH]; intros b Hb; [by destruct b|].
  rewrite !text_of_lines_cons.
  assert (forall b', (b' = true -> t = Py.cr) ->
            universal_newlines b' (t +:+ text_of_lines t lines)
            = Py.nl +:+ text_of_lines Py.nl lines) as Hterm.
  { intros b' Hb'. rewrite universal_newlines_terminator by done.
    rewrite IH; [done|]. by intros ?%bool_decide_eq_true. }
  destruct (decide (line = EmptyString)) as [->|Hne].
  - rewrite !append_nil_l. by apply Hterm.
  - rewrite universal_newlines_plain_any by done. by rewrite Hterm.
Qed.

Lemma iter_lines_cons cur line rest :
  Py.contains Py.LF line = false ->
  iter_lines cur (line +:+ Py.nl +:+ rest)
  = (cur +:+ line +:+ Py.nl) :: iter_lines EmptyString rest.
Proof.
  revert cur. induction line as [|c line IH]; intros cur; simpl.
  - done.
  - intros Hlf. apply orb_false_elim in Hlf as [Hc Hlf].
    apply bool_decide_eq_false in Hc. rewrite append_cons. simpl.
    destruct (decide (c = Py.LF)); [done|].
    rewrite IH by done. by rewrite append_assoc.
Qed.

Lemma iter_lines_lines lines :
  Forall unbroken lines ->
  iter_lines EmptyString (text_of_lines Py.nl lines)
  = (λ line, line +:+ Py.nl) <$> lines.
Proof.
  induction 1 as [|line lines [_ Hlf] _ IH]; [done|].
  rewrite text_of_lines_cons, iter_lines_cons by done. simpl. by rewrite IH.
Qed.

(** The lines read from a file whose lines are all closed by the same
    newline. *)
Lemma lines_of_text t lines :
  t ∈ [Py.nl; Py.cr; Py.crnl] -> Forall unbroken lines ->
  iter_lines EmptyString (universal_newlines false (text_of_lines t lines))
  = (λ line, line +:+ Py.nl) <$> lines.
Proof.
  intros Ht Hlines. rewrite universal_newlines_lines by done.
  by apply iter_lines_lines.
Qed.

Lemma parse_lines_newlines offsets lines (acc : list (list string)) :
  parse_lines offsets ((λ line, line +:+ Py.nl) <$> lines) acc
  = parse_lines offsets lines acc.
Proof.
  revert acc. induction lines as [|line lines IH]; intros acc; [done|].
  simpl. rewrite parse_line_newline.
  destruct (parse_line offsets line); [done|]. apply IH.
Qed.

(** X6: the decode does not depend on the newline convention of the file:
    for lines without line break characters, all closed by [\n], all by
    [\r] or all by [\r\n], the outcome is that of the loop run over the
    bare lines. *)
Theorem X6_newline_convention_is_irrelevant st t lines :
  t ∈ [Py.nl; Py.cr; Py.crnl] ->
  Forall unbroken lines ->
  files st !! fixed_width_filename (encoding_props st) = Some (text_of_lines t lines) ->
  (parse_fixed_width_file st).2
  = parse_lines (offsets (encoding_props st)) lines [].
Proof.
  intros Ht Hlines Hfile.
  rewrite (parse_fixed_width_file_run st _ Hfile). simpl.
  by rewrite lines_of_text, parse_lines_newlines.
Qed.

Lemma universal_newlines_lines_then b t lines last :
  t ∈ [Py.nl; Py.cr; Py.crnl] -> (b = true -> t = Py.cr) ->
  Forall unbroken lines -> unbroken last -> last ≠ EmptyString ->
  universal_newlines b (text_of_lines t lines +:+ last)
  = text_of_lines Py.nl lines +:+ last.
Proof.
  intros Ht Hb Hlines Hlast Hne. revert b Hb.
  induction Hlines as [|line lines Hline _ IH]; intros b Hb.
  - rewrite !append_nil_l. rewrite <- (append_nil_r last) at 1.
    rewrite universal_newlines_plain_any by done. by rewrite append_nil_r.
  - rewrite !text_of_lines_cons, !append_assoc.
    assert (forall b', (b' = true -> t = Py.cr) ->
              universal_newlines b' (t +:+ text_of_lines t lines +:+ last)
              = Py.nl +:+ text_of_lines Py.nl lines +:+ last) as Hterm.
    { intros b' Hb'. rewrite universal_newlines_terminator by done.
      rewrite IH; [done|]. by intros ?%bool_decide_eq_true. }
    destruct (decide (line = EmptyString)) as [->|Hne'].
    + rewrite !append_nil_l. by apply Hterm.
    + rewrite universal_newlines_plain_any by done. by rewrite Hterm.
Qed.

Lemma iter_lines_lines_then lines rest :
  Forall unbroken lines ->
  iter_lines EmptyString (text_of_lines Py.nl lines +:+ rest)
  = ((λ line, line +:+ Py.nl) <$> lines) ++ iter_lines EmptyString rest.
Proof.
  induction 1 as [|line lines [_ Hlf] _ IH]; [done|].
  rewrite text_of_lines_cons, !append_assoc, iter_lines_cons by done.
  simpl. by rewrite IH.
Qed.

Lemma iter_lines_unterminated cur last :
  Py.contains Py.LF last = false ->
  iter_lines cur last
  = if decide (cur +:+ last = EmptyString) then [] else [cur +:+ last].
Proof.
  revert cur. induction last as [|c last IH]; intros cur Hlf; simpl.
  - by rewrite append_nil_r.
  - simpl in Hlf. apply orb_false_elim in Hlf as [Hc Hlf].
    apply bool_decide_eq_false in Hc.
    destruct (decide (c = Py.LF)); [done|].
    rewrite IH by done. by rewrite append_assoc.
Qed.

(** X7: the newline after the last line may be missing: when the last
    line is not empty, the file without its closing newline decodes as the
    file with it. *)
Theorem X7_final_newline_is_optional st t lines last :
  t ∈ [Py.nl; Py.cr; Py.crnl] ->
  Forall unbroken lines -> unbroken last -> last ≠ EmptyString ->
  files st !! fixed_width_filename (encoding_props st)
  = Some (text_of_lines t lines +:+ last) ->
  (parse_fixed_width_file st).2
  = parse_lines (offsets (encoding_props st)) (lines ++ [last]) [].
Proof.
  intros Ht Hlines Hlast Hne Hfile.
  rewrite (parse_fixed_width_file_run st _ Hfile). simpl.
  rewrite universal_newlines_lines_then by done.
  rewrite iter_lines_lines_then by done.
  rewrite iter_lines_unterminated by apply Hlast.
  rewrite append_nil_l, decide_False by done.
  clear. generalize (@nil (list string)) as acc.
  induction lines as [|line lines IH]; intros acc; simpl; [done|].
  rewrite parse_line_newline. destruct (parse_line _ line); [done|]. apply IH.
Qed.

End Normalisation.

(** ** The encoder and the whole run *)

Section MoreEncode.

Variable rt : runtime.

Implicit Types (st : state) (sf ff df : string) (d : option string)
  (delimited_data records : list (list string)).

Lemma parse_fixed_width_file_files st :
  files (parse_fixed_width_file st).1 = files st
  ∧ unwritable (parse_fixed_width_file st).1 = unwritable st.
Proof.
  unfold parse_fixed_width_file, open_read, bind, get_self, emit, lift. simpl.
  by destruct (files st !! _).
Qed.

Lemma generate_delimited_file_unwritable st delimited_data :
  delimited_filename (encoding_props st) ∈ unwritable st ->
  (generate_delimited_file rt delimited_data st).2
  = inl (OSError (delimited_filename (encoding_props st)))
  ∧ files (generate_delimited_file rt delimited_data st).1 = files st.
Proof.
  intros H. unfold generate_delimited_file, open_write, bind, get_self, emit.
  simpl. by rewrite decide_True.
Qed.

Lemma writerows_unwritable path t (rows : list (list string)) st :
  unwritable (writerows path t rows st).1 = unwritable st.
Proof.
  revert st. induction rows as [|row rows IH]; intros st; [done|].
  simpl. unfold bind, writerow, write, emit, set_file. simpl. by rewrite IH.
Qed.

Lemma generate_delimited_file_unwritable_kept st delimited_data :
  unwritable (generate_delimited_file rt delimited_data st).1 = unwritable st.
Proof.
  unfold generate_delimited_file, open_write, bind, get_self, emit, set_file.
  simpl. destruct (decide _); [done|]. simpl.
  destruct (include_header (encoding_props st)).
  - unfold writerow, write, bind, emit, set_file, get_self. simpl.
    by rewrite writerows_unwritable.
  - unfold ret. by rewrite writerows_unwritable.
Qed.

(** X8: encoding touches the output file and nothing else.  When the
    output cannot be opened the encoder raises the failure of [open] and no
    file changes; otherwise the output consists of the texts of the rows
    written, whatever it held before, and every other file is as it was. *)
Theorem X8_only_the_output_file_is_written st delimited_data :
  let self := encoding_props st in
  let outcome := generate_delimited_file rt delimited_data st in
  (forall path, path ≠ delimited_filename self ->
     files outcome.1 !! path = files st !! path)
  ∧ (delimited_filename self ∈ unwritable st ->
     outcome.2 = inl (OSError (delimited_filename self))
     ∧ files outcome.1 = files st)
  ∧ (delimited_filename self ∉ unwritable st ->
     outcome.2 = inr tt
     ∧ files outcome.1 !! delimited_filename self
       = Some (concat_texts
                 (Csv.row_text (resolve_newline rt (delimited_newline self))
                  <$> rows_written self delimited_data))).
Proof.
  cbv zeta.
  destruct (decide (delimited_filename (encoding_props st) ∈ unwritable st))
    as [Hin|Hout].
  - destruct (generate_delimited_file_unwritable st delimited_data Hin) as [Hr Hf].
    split; [|split]; [|done|done]. intros path _. by rewrite Hf.
  - destruct (generate_delimited_file_run rt st delimited_data Hout)
      as (st' & Hrun & _ & _ & Hfiles).
    rewrite Hrun. simpl. split; [|split]; [|done|].
    + intros path Hne. rewrite Hfiles. by apply lookup_insert_ne.
    + intros _. split; [done|]. rewrite Hfiles. apply lookup_insert_eq.
Qed.

(** X9: a run that raises leaves every file as it was: the constructor
    and the decoder only read, and the one failure the encoder has comes
    before the output is truncated. *)
Theorem X9_failed_run_changes_no_file st sf ff df d e :
  (run_pipeline rt sf ff df d st).2 = inl e ->
  files (run_pipeline rt sf ff df d st).1 = files st.
Proof.
  unfold run_pipeline, bind.
  destruct (init_trace rt st sf ff df d) as (_ & Hfiles & Hunw).
  destruct (EncodingProperties_init rt sf ff df d st) as [st1 [e1|[]]]; [done|].
  simpl in Hfiles, Hunw.
  destruct (parse_fixed_width_file_files st1) as [Hfiles2 Hunw2].
  destruct (parse_fixed_width_file st1) as [st2 [e2|data]]; simpl in *.
  { intros _. congruence. }
  intros Herr.
  destruct (decide (delimited_filename (encoding_props st2) ∈ unwritable st2))
    as [Hin|Hout].
  - destruct (generate_delimited_file_unwritable st2 data Hin) as [_ Hf]. congruence.
  - destruct (generate_delimited_file_run rt st2 data Hout) as (st' & Hrun & _).
    by rewrite Hrun in Herr.
Qed.

(** X10: when the configuration is built, every line of the input is well
    formed and the output can be opened, the run returns and the output
    file holds the header row (when enabled) followed by one row per input
    line, in input order, each closed by the resolved terminator; the
    other files are as they were. *)
Theorem X10_run_writes_one_row_per_line st sf ff df d st1 text records :
  EncodingProperties_init rt sf ff df d st = (st1, inr tt) ->
  let self := encoding_props st1 in
  files st !! fixed_width_filename self = Some text ->
  Forall2 (λ line record, parse_line (offsets self) line = inr record)
    (iter_lines EmptyString (universal_newlines false text)) records ->
  delimited_filename self ∉ unwritable st ->
  let outcome := run_pipeline rt sf ff df d st in
  outcome.2 = inr tt
  ∧ encoding_props outcome.1 = self
  ∧ files outcome.1
    = <[delimited_filename self :=
          concat_texts
            (Csv.row_text (resolve_newline rt (delimited_newline self))
             <$> rows_written self records)]> (files st).
Proof.
  intros Hinit self Hfile Hlines Hw. cbv zeta.
  destruct (init_trace rt st sf ff df d) as (_ & Hfiles & Hunw).
  unfold run_pipeline, bind. rewrite Hinit in *. simpl in Hfiles, Hunw.
  rewrite (parse_fixed_width_file_run st1 text) by (by rewrite Hfiles).
  fold self.
  assert (parse_lines (offsets self)
            (iter_lines EmptyString (universal_newlines false text)) []
          = inr records) as ->.
  { apply parse_lines_spec. by exists records. }
  set (st2 := logged _ st1).
  destruct (generate_delimited_file_run rt st2 records)
    as (st' & Hrun & Hself & _ & Hf).
  { simpl. by rewrite Hunw. }
  rewrite Hrun. simpl. split; [done|]. split; [done|].
  rewrite Hf. simpl. by rewrite Hfiles.
Qed.

End MoreEncode.

(** ** The mock writer *)

Section MoreMockWriter.

Variable rt : runtime.

Implicit Types (st : state) (path to : string) (newline : option string)
  (row : list string) (data : list (list string)) (c : ascii).

Lemma translate_on_write_plain to s :
  Py.contains Py.LF s = false -> translate_on_write to s = s.
Proof.
  induction s as [|c s IH]; [done|]. simpl. intros H.
  apply orb_false_elim in H as [Hc H]. apply bool_decide_eq_false in Hc.
  destruct (decide (c = Py.LF)); [done|]. by rewrite IH.
Qed.

Lemma translate_on_write_nl to : translate_on_write to Py.nl = to.
Proof. simpl. apply append_nil_r. Qed.

Lemma concat_texts_app (xs ys : list string) :
  concat_texts (xs ++ ys) = concat_texts xs +:+ concat_texts ys.
Proof.
  induction xs as [|x xs IH]; [done|].
  change ((x :: xs) ++ ys) with (x :: (xs ++ ys)).
  rewrite !concat_texts_cons, IH. by rewrite append_assoc.
Qed.

Lemma write_fields_run path newline row st old :
  files st !! path = Some old ->
  Forall (λ field, Py.contains Py.LF field = false) row ->
  exists st',
    write_fields rt path newline row st = (st', inr tt)
    ∧ encoding_props st' = encoding_props st
    ∧ unwritable st' = unwritable st
    ∧ files st' = <[path := old +:+ concat_texts row]> (files st).
Proof.
  intros Hold Hrow. revert st old Hold.
  induction Hrow as [|field row Hfield _ IH]; intros st old Hold.
  - exists st. simpl. unfold ret. change (concat_texts []) with EmptyString.
    by rewrite append_nil_r, insert_id.
  - simpl. unfold bind, write_text, write, emit, set_file. simpl.
    rewrite Hold. simpl. rewrite translate_on_write_plain by done.
    edestruct (IH (with_file path (old +:+ field) (logged (EWrite path field) st)))
      as (st' & Hrun & Hself & Hunw & Hfiles).
    { simpl. apply lookup_insert_eq. }
    exists st'. rewrite Hrun, Hself, Hunw, Hfiles.
    unfold concat_texts. simpl.
    by rewrite insert_insert_eq, append_assoc.
Qed.

Lemma write_lines_run path newline data st old :
  files st !! path = Some old ->
  Forall (Forall (λ field, Py.contains Py.LF field = false)) data ->
  exists st',
    write_lines rt path newline data st = (st', inr tt)
    ∧ encoding_props st' = encoding_props st
    ∧ unwritable st' = unwritable st
    ∧ files st'
      = <[path := old +:+ text_of_lines (write_newline (os_linesep rt) newline)
                            (concat_texts <$> data)]> (files st).
Proof.
  intros Hold Hdata. revert st old Hold.
  induction Hdata as [|row data Hrow _ IH]; intros st old Hold.
  - exists st. simpl. unfold ret. change (text_of_lines _ []) with EmptyString.
    by rewrite append_nil_r, insert_id.
  - simpl. unfold bind at 1.
    destruct (write_fields_run path newline row st old Hold Hrow)
      as (st1 & Hrun1 & Hself1 & Hunw1 & Hfiles1).
    rewrite Hrun1. unfold bind, write_text, write, emit, set_file. simpl.
    rewrite Hfiles1, lookup_insert_eq. simpl. rewrite !append_nil_r.
    set (t := write_newline (os_linesep rt) newline).
    edestruct (IH (with_file path ((old +:+ concat_texts row) +:+ t)
                     (logged (EWrite path t) st1)))
      as (st' & Hrun & Hself & Hunw & Hfiles).
    { simpl. apply lookup_insert_eq. }
    exists st'. rewrite Hrun, Hself, Hunw, Hfiles.
    change (list_fmap (list string) string concat_texts data)
      with (concat_texts <$> data).
    rewrite text_of_lines_cons. simpl.
    rewrite Hfiles1, !insert_insert_eq, Hself1, Hunw1.
    by rewrite !append_assoc.
Qed.

Lemma write_fixed_width_file_run st newline data :
  newline ∈ io_newlines ->
  fixed_width_filename (encoding_props st) ∉ unwritable st ->
  Forall (Forall (λ field, Py.contains Py.LF field = false)) data ->
  exists st',
    write_fixed_width_file rt newline data st = (st', inr tt)
    ∧ encoding_props st' = encoding_props st
    ∧ unwritable st' = unwritable st
    ∧ files st'
      = <[fixed_width_filename (encoding_props st) :=
            text_of_lines (write_newline (os_linesep rt) newline)
              (concat_texts <$> data)]> (files st).
Proof.
  intros Hnl Hw Hdata.
  unfold write_fixed_width_file, open_text_write, bind, get_self, emit, set_file.
  simpl. rewrite decide_False by done. simpl.
  rewrite bool_decide_eq_false_2 by (by intros H; apply H). unfold ret at 1.
  destruct (write_lines_run (fixed_width_filename (encoding_props st)) newline
              data
              (with_file (fixed_width_filename (encoding_props st)) EmptyString
                 (logged (EOpen (fixed_width_filename (encoding_props st)) "w"
                            (Some (fixed_width_encoding (encoding_props st)))
                            newline) st))
              EmptyString)
    as (st' & Hrun & Hself & Hunw & Hfiles).
  { apply lookup_insert_eq. }
  { exact Hdata. }
  exists st'. simpl in *. rewrite Hrun.
  split; [done|]. split; [done|]. split; [done|].
  rewrite Hfiles. by rewrite insert_insert_eq.
Qed.

(** X11: with a legal newline setting and a target that can be opened,
    the mock writer replaces the fixed width file by the lines of the data,
    each line being its fields one after another followed by what the
    setting makes of a line feed: the host's line ending for [None], a line
    feed for the empty string, the setting itself otherwise.  (Fields
    without a line feed; one in a field would be rewritten too.) *)
Theorem X11_mock_file_has_one_terminated_line_per_row st newline data :
  newline ∈ io_newlines ->
  fixed_width_filename (encoding_props st) ∉ unwritable st ->
  Forall (Forall (λ field, Py.contains Py.LF field = false)) data ->
  let outcome := write_fixed_width_file rt newline data st in
  outcome.2 = inr tt
  ∧ encoding_props outcome.1 = encoding_props st
  ∧ files outcome.1
    = <[fixed_width_filename (encoding_props st) :=
          text_of_lines (write_newline (os_linesep rt) newline)
            (concat_texts <$> data)]> (files st).
Proof.
  intros Hnl Hw Hdata. cbv zeta.
  destruct (write_fixed_width_file_run st newline data Hnl Hw Hdata)
    as (st' & Hrun & Hself & _ & Hfiles).
  by rewrite Hrun.
Qed.


End MoreMockWriter.

(** ** Mock data through the writer and the decoder *)

Section MockRoundTrip.

Variable rt : runtime.

Implicit Types (st : state) (newline : option string) (layout : list Z)
  (row : list string) (data : list (list string)) (c : ascii).

Lemma contains_concat_texts c row :
  Forall (λ field, Py.contains c field = false) row ->
  Py.contains c (concat_texts row) = false.
Proof.
  induction 1 as [|field row Hfield _ IH]; [done|].
  by rewrite concat_texts_cons, contains_append, Hfield, IH.
Qed.

Lemma unbroken_concat_texts row : Forall unbroken row -> unbroken (concat_texts row).
Proof.
  intros Hrow. split; apply contains_concat_texts;
    eapply Forall_impl; try exact Hrow; by intros field [??].
Qed.

Lemma len_concat_row layout row :
  Forall2 (λ field w, Py.len field = w) row layout ->
  Py.len (concat_texts row) = Py.sum layout.
Proof.
  induction 1 as [|field w row layout Hf _ IH]; [done|].
  by rewrite concat_texts_cons, len_append, sum_cons, Hf, IH.
Qed.

Lemma laid_out_nonneg layout row :
  Forall2 (λ field w, Py.len field = w) row layout -> Forall (λ w, 0 ≤ w) layout.
Proof.
  induction 1 as [|field w row layout Hf _ IH]; constructor; [|done].
  pose proof (len_nonneg field). lia.
Qed.

(** Column [i] of the fields written one after another is field [i]. *)
Lemma substring_concat_row layout row i field w :
  Forall2 (λ field w, Py.len field = w) row layout ->
  row !! i = Some field -> layout !! i = Some w ->
  String.substring (Z.to_nat (Py.sum (take i layout))) (Z.to_nat w)
    (concat_texts row)
  = field.
Proof.
  intros Hrow. revert i.
  induction Hrow as [|f w0 row layout Hf Hrow IH]; intros i Hfield Hw; [done|].
  unfold Py.len in Hf. rewrite concat_texts_cons.
  destruct i as [|i]; simpl in Hfield, Hw.
  - injection Hfield as ->. injection Hw as ->. simpl.
    replace (Z.to_nat w) with (String.length field) by lia.
    apply substring_append_head.
  - change (take (S i) (w0 :: layout)) with (w0 :: take i layout).
    rewrite sum_cons.
    destruct (sum_take_bounds layout i w (laid_out_nonneg _ _ Hrow) Hw) as (H1 & _).
    replace (Z.to_nat (w0 + Py.sum (take i layout)))
      with (String.length f + Z.to_nat (Py.sum (take i layout)))%nat by lia.
    rewrite substring_append_skip. by apply IH.
Qed.

(** A line made of fields as long as their columns decodes to the fields
    with the spaces removed. *)
Lemma parse_line_concat_row layout row :
  Forall2 (λ field w, Py.len field = w) row layout ->
  Forall (λ field, Py.contains Py.LF field = false) row ->
  parse_line layout (concat_texts row) = inr (Py.replace_char Py.SPACE <$> row).
Proof.
  intros Hrow Hlf.
  assert (Py.replace_char Py.LF (concat_texts row) = concat_texts row) as Hstrip.
  { apply replace_char_absent. by apply contains_concat_texts. }
  assert (Py.len (Py.replace_char Py.LF (concat_texts row)) = Py.sum layout) as Hlen.
  { rewrite Hstrip. by apply len_concat_row. }
  pose proof (parse_line_ok layout (concat_texts row) Hlen) as Hparse.
  rewrite Hparse. f_equal. apply list_eq. intros i.
  rewrite list_lookup_imap, list_lookup_fmap.
  destruct (layout !! i) as [w|] eqn:Hw; simpl.
  - destruct (row !! i) as [field|] eqn:Hfield; simpl.
    + do 2 f_equal. rewrite Hstrip.
      destruct (sum_take_bounds layout i w (laid_out_nonneg _ _ Hrow) Hw)
        as (H1 & H2 & H3).
      rewrite slice_substring; [| lia | lia |].
      * by apply (substring_concat_row layout row i field w).
      * rewrite (len_concat_row layout row Hrow). lia.
    + apply lookup_ge_None in Hfield. apply lookup_lt_Some in Hw.
      apply Forall2_length in Hrow. lia.
  - destruct (row !! i) as [field|] eqn:Hfield; [|done].
    apply lookup_lt_Some in Hfield. apply lookup_ge_None in Hw.
    apply Forall2_length in Hrow. lia.
Qed.

Lemma parse_lines_laid_out layout data (acc : list (list string)) :
  laid_out layout data ->
  Forall (Forall unbroken) data ->
  parse_lines layout (concat_texts <$> data) acc = inr (acc ++ without_spaces data).
Proof.
  intros Hdata Hun. revert acc.
  induction Hdata as [|row data Hrow _ IH]; intros acc.
  - simpl. by rewrite app_nil_r.
  - apply Forall_cons in Hun as [Hrow_un Hun]. simpl.
    rewrite parse_line_concat_row; [|done|].
    + rewrite IH by done. by rewrite <- app_assoc.
    + eapply Forall_impl; [exact Hrow_un|]. by intros field [??].
Qed.

Lemma write_newline_is_a_newline newline :
  newline ∈ io_newlines -> os_linesep rt ∈ [Py.nl; Py.crnl] ->
  write_newline (os_linesep rt) newline ∈ [Py.nl; Py.cr; Py.crnl].
Proof.
  unfold io_newlines. rewrite !elem_of_cons, !elem_of_nil.
  intros [->|[->|[->|[->|[->|[]]]]]] [Hs|[Hs|[]]]; simpl; rewrite ?Hs; auto.
Qed.

(** What the decoder reads back from what the mock writer wrote. *)
Lemma mock_file_lines st newline data :
  newline ∈ io_newlines ->
  os_linesep rt ∈ [Py.nl; Py.crnl] ->
  fixed_width_filename (encoding_props st) ∉ unwritable st ->
  Forall (Forall unbroken) data ->
  ((write_fixed_width_file rt newline data;;; parse_fixed_width_file) st).2
  = parse_lines (offsets (encoding_props st)) (concat_texts <$> data) [].
Proof.
  intros Hnl Hsep Hw Hun.
  destruct (write_fixed_width_file_run rt st newline data Hnl Hw)
    as (st' & Hrun & Hself & _ & Hfiles).
  { eapply Forall_impl; [exact Hun|]. intros row Hrow.
    eapply Forall_impl; [exact Hrow|]. by intros field [??]. }
  unfold bind. rewrite Hrun.
  rewrite (parse_fixed_width_file_run st'
             (text_of_lines (write_newline (os_linesep rt) newline)
                (concat_texts <$> data))).
  - simpl. rewrite Hself, lines_of_text, parse_lines_newlines; [done| |].
    + by apply write_newline_is_a_newline.
    + apply Forall_fmap. eapply Forall_impl; [exact Hun|].
      intros row Hrow. by apply unbroken_concat_texts.
  - rewrite Hself, Hfiles. apply lookup_insert_eq.
Qed.

(** X13: data laid out for the columns of the configuration, written by
    the mock writer under any legal newline setting and decoded again, comes
    back with the spaces removed from every field: the same number of rows,
    the same number of fields, in the same order. *)
Theorem X13_mock_file_decodes_to_the_data st newline data :
  newline ∈ io_newlines ->
  os_linesep rt ∈ [Py.nl; Py.crnl] ->
  fixed_width_filename (encoding_props st) ∉ unwritable st ->
  laid_out (offsets (encoding_props st)) data ->
  Forall (Forall unbroken) data ->
  ((write_fixed_width_file rt newline data;;; parse_fixed_width_file) st).2
  = inr (without_spaces data).
Proof.
  intros Hnl Hsep Hw Hdata Hun.
  rewrite mock_file_lines by done. by rewrite parse_lines_laid_out.
Qed.

(** X14: data laid out for columns of another total width is rejected:
    written by the mock writer and decoded under a configuration whose
    widths sum to something else, any non-empty data raises the width
    error. *)
Theorem X14_other_total_width_is_rejected st newline layout data :
  newline ∈ io_newlines ->
  os_linesep rt ∈ [Py.nl; Py.crnl] ->
  fixed_width_filename (encoding_props st) ∉ unwritable st ->
  laid_out layout data ->
  Forall (Forall unbroken) data ->
  data ≠ [] ->
  Py.sum layout ≠ Py.sum (offsets (encoding_props st)) ->
  ((write_fixed_width_file rt newline data;;; parse_fixed_width_file) st).2
  = inl RecordWidthError.
Proof.
  intros Hnl Hsep Hw Hdata Hun Hne Hsum.
  rewrite mock_file_lines by done.
  destruct data as [|row data]; [done|]. simpl.
  apply Forall_cons in Hdata as [Hrow _]. apply Forall_cons in Hun as [Hrow_un _].
  rewrite parse_line_bad; [done|].
  rewrite replace_char_absent.
  - by rewrite (len_concat_row layout row Hrow).
  - apply contains_concat_texts. eapply Forall_impl; [exact Hrow_un|].
    by intros field [??].
Qed.

End MockRoundTrip.

(** ** The mock generator *)

Section MoreMockGenerator.

Variable draws : nat -> Z.

Implicit Types (n : nat) (w : Z) (c : ascii) (props : EncodingProperties).

Lemma randint_run (a b : Z) n :
  a ≤ b -> exists v, randint draws a b n = (S n, inr v) ∧ a ≤ v ≤ b.
Proof.
  intros Hab. unfold randint.
  assert ((b <? a) = false) as -> by lia.
  eexists. split; [reflexivity|].
  pose proof (Z.mod_pos_bound (draws n) (b - a + 1)). lia.
Qed.

Lemma str_mul_succ (s : string) (k : nat) :
  str_mul s (Z.of_nat (S k)) = s +:+ str_mul s (Z.of_nat k).
Proof. unfold str_mul. rewrite !Nat2Z.id. reflexivity. Qed.

Lemma length_str_mul c (r : Z) :
  String.length (str_mul (String c EmptyString) r) = Z.to_nat r.
Proof.
  unfold str_mul. induction (Z.to_nat r) as [|k IH]; [done|].
  simpl. by rewrite length_append, IH.
Qed.

Lemma contains_str_mul c c' (r : Z) :
  c ≠ c' -> Py.contains c' (str_mul (String c EmptyString) r) = false.
Proof.
  intros Hc. unfold str_mul. induction (Z.to_nat r) as [|k IH]; [done|].
  simpl. rewrite contains_append, IH. simpl.
  by rewrite bool_decide_eq_false_2.
Qed.

(** The characters the generator picks are visible ones: not a space, not
    a line break. *)
Lemma decoding_table_visible (code : Z) c :
  33 ≤ code ≤ 255 -> c ∈ [Py.SPACE; Py.LF; Py.CR] -> decoding_table code ≠ c.
Proof.
  intros Hcode Hc Heq. unfold decoding_table in Heq.
  apply (f_equal N_of_ascii) in Heq.
  rewrite N_ascii_embedding in Heq by lia.
  rewrite !elem_of_cons, elem_of_nil in Hc.
  destruct Hc as [->|[->|[->|[]]]]; cbn in Heq; lia.
Qed.

(** What follows from the shape of a mock column. *)
Lemma mock_shape_facts w (column : string) :
  mock_shape w column ->
  Py.len column = w ∧ unbroken column
  ∧ Py.replace_char Py.SPACE column ≠ EmptyString.
Proof.
  intros (code & repeats & Hcode & _ & Hrep & ->).
  set (c := decoding_table code).
  assert (c ≠ Py.SPACE ∧ c ≠ Py.LF ∧ c ≠ Py.CR) as (Hsp & Hlf & Hcr).
  { repeat split; apply decoding_table_visible; try done;
      rewrite !elem_of_cons; auto. }
  unfold Py.ljust, Py.len. rewrite length_str_mul. split; [|split].
  - rewrite length_append, length_str_mul, length_spaces. lia.
  - split; rewrite contains_append, contains_str_mul, contains_spaces; done.
  - rewrite replace_char_append, replace_char_spaces, append_nil_r.
    rewrite replace_char_absent by (by apply contains_str_mul).
    intros Hnil. apply (f_equal String.length) in Hnil.
    rewrite length_str_mul in Hnil. simpl in Hnil. lia.
Qed.

Lemma mock_column_run w n :
  1 ≤ w ->
  exists column,
    mock_column draws w n = (S (S n), inr column) ∧ mock_shape w column.
Proof.
  intros Hw. unfold mock_column, rbind.
  destruct (randint_run 1 w n Hw) as (repeats & -> & Hrep).
  destruct (randint_run 33 255 (S n) ltac:(lia)) as (code & -> & Hcode).
  unfold rret. eexists. split; [reflexivity|].
  case_bool_decide as Hin.
  - exists 33, repeats. repeat split; try lia.
    unfold replaced_codes. rewrite !elem_of_cons, elem_of_nil. lia.
  - by exists code, repeats.
Qed.

Lemma mock_line_run (layout : list Z) (line_data : list string) n :
  Forall (λ w, 1 ≤ w) layout ->
  exists columns,
    mock_line draws layout line_data n
    = ((n + 2 * length layout)%nat, inr (line_data ++ columns))
    ∧ Forall2 (λ column w, mock_shape w column) columns layout.
Proof.
  intros Hall. revert line_data n.
  induction Hall as [|w layout Hw _ IH]; intros line_data n.
  - exists []. simpl. unfold rret. rewrite app_nil_r. split; [|constructor].
    do 2 f_equal. lia.
  - simpl. unfold rbind.
    destruct (mock_column_run w n Hw) as (column & -> & Hshape).
    destruct (IH (line_data ++ [column]) (S (S n))) as (columns & -> & Hshapes).
    exists (column :: columns). split; [|by constructor].
    rewrite <- app_assoc. simpl. do 2 f_equal. lia.
Qed.

Lemma mock_lines_run (num_lines : nat) props (data : list (list string)) n :
  Forall (λ w, 1 ≤ w) (offsets props) ->
  exists rows,
    mock_lines draws num_lines props data n
    = ((n + num_lines * (2 * length (offsets props)))%nat, inr (data ++ rows))
    ∧ length rows = num_lines
    ∧ Forall (λ row, Forall2 (λ column w, mock_shape w column) row (offsets props))
        rows.
Proof.
  intros Hall. revert data n.
  induction num_lines as [|k IH]; intros data n.
  - exists []. simpl. unfold rret. rewrite app_nil_r.
    split; [|split; [done|constructor]]. do 2 f_equal. lia.
  - simpl. unfold rbind.
    destruct (mock_line_run (offsets props) [] n Hall) as (row & -> & Hrow).
    rewrite app_nil_l.
    destruct (IH (data ++ [row]) (n + 2 * length (offsets props))%nat)
      as (rows & -> & Hlen & Hrows).
    exists (row :: rows). split; [|split].
    + rewrite <- app_assoc. f_equal. rewrite Nat.mul_succ_l. lia.
    + simpl. by rewrite Hlen.
    + by constructor.
Qed.

Lemma mock_row_facts (layout : list Z) (row : list string) :
  Forall2 (λ column w, mock_shape w column) row layout ->
  Forall2 (λ field w, Py.len field = w) row layout
  ∧ Forall unbroken row
  ∧ Forall (λ field, field ≠ EmptyString) (Py.replace_char Py.SPACE <$> row).
Proof.
  induction 1 as [|column w row layout Hshape _ (IH1 & IH2 & IH3)].
  - repeat split; constructor.
  - destruct (mock_shape_facts w column Hshape) as (H1 & H2 & H3).
    repeat split; by constructor.
Qed.

Lemma mock_rows_laid_out (layout : list Z) (rows : list (list string)) :
  Forall (λ row, Forall2 (λ column w, mock_shape w column) row layout) rows ->
  laid_out layout rows ∧ Forall (Forall unbroken) rows
  ∧ Forall (Forall (λ field, field ≠ EmptyString)) (without_spaces rows).
Proof.
  intros Hrows. unfold laid_out, without_spaces.
  split; [|split]; [| |apply Forall_fmap];
    (eapply Forall_impl; [exact Hrows|]); intros row Hrow;
    by destruct (mock_row_facts layout row Hrow) as (H1 & H2 & H3).
Qed.

(** X15: when every width is at least 1 the generator returns, whatever
    the random draws, ten rows with one column per width; each column is
    one character, neither a space nor a line break nor one of the
    replaced codes, repeated between once and the width and padded on the
    right with spaces to exactly the width. *)
Theorem X15_mock_data_shape props n :
  Forall (λ w, 1 ≤ w) (offsets props) ->
  exists data,
    (generate_fixed_width_data draws props n).2 = inr data
    ∧ length data = 10%nat
    ∧ Forall (λ row, Forall2 (λ column w, mock_shape w column) row (offsets props))
        data
    ∧ laid_out (offsets props) data
    ∧ Forall (Forall unbroken) data.
Proof.
  intros Hall. unfold generate_fixed_width_data.
  destruct (mock_lines_run 10 props [] n Hall) as (rows & -> & Hlen & Hrows).
  exists rows. simpl. split; [done|]. split; [done|]. split; [done|].
  destruct (mock_rows_laid_out _ _ Hrows) as (H1 & H2 & _). done.
Qed.

(** X16: a width below 1 makes the generator raise on the first such
    column of the first row: the range of [randint(1, width)] is empty. *)
Theorem X16_mock_data_needs_positive_widths props n (good : list Z) w (rest : list Z) :
  offsets props = good ++ w :: rest ->
  Forall (λ w, 1 ≤ w) good ->
  w < 1 ->
  (generate_fixed_width_data draws props n).2 = inl (EmptyRange 1 w).
Proof.
  intros Hoff Hgood Hw. unfold generate_fixed_width_data. simpl.
  unfold rbind at 1. rewrite Hoff.
  assert (forall line_data m,
            (mock_line draws (good ++ w :: rest) line_data m).2
            = inl (EmptyRange 1 w)) as Hline.
  { clear Hoff. induction Hgood as [|w0 good Hw0 _ IH]; intros line_data m.
    - simpl. unfold rbind, mock_column, rbind, randint.
      assert ((w <? 1) = true) as -> by lia. done.
    - simpl. unfold rbind at 1.
      destruct (mock_column_run w0 m Hw0) as (column & -> & _). apply IH. }
  specialize (Hline [] n).
  destruct (mock_line draws (good ++ w :: rest) [] n) as [m [e|row]];
    simpl in Hline; [simpl; by injection Hline as -> | done].
Qed.

End MoreMockGenerator.

Section MockTest.

Variable rt : runtime.
Variable draws : nat -> Z.

(** X17: the round trip the test suite checks holds for every outcome of
    the random generator: with all widths at least 1, a legal newline
    setting for the mock file and a target that can be opened, the data the
    generator returns, written by the mock writer and decoded, comes back
    with the spaces removed from every field, and no field comes back
    empty. *)
Theorem X17_generated_data_round_trips st newline n :
  Forall (λ w, 1 ≤ w) (offsets (encoding_props st)) ->
  newline ∈ io_newlines ->
  os_linesep rt ∈ [Py.nl; Py.crnl] ->
  fixed_width_filename (encoding_props st) ∉ unwritable st ->
  exists data,
    (generate_fixed_width_data draws (encoding_props st) n).2 = inr data
    ∧ ((write_fixed_width_file rt newline data;;; parse_fixed_width_file) st).2
      = inr (without_spaces data)
    ∧ Forall (Forall (λ field, field ≠ EmptyString)) (without_spaces data).
Proof.
  intros Hall Hnl Hsep Hw. unfold generate_fixed_width_data.
  destruct (mock_lines_run draws 10 (encoding_props st) [] n Hall)
    as (rows & -> & _ & Hrows).
  destruct (mock_rows_laid_out _ _ Hrows) as (Hlaid & Hun & Hne).
  exists rows. simpl. split; [done|]. split; [|done].
  rewrite mock_file_lines by done. by rewrite parse_lines_laid_out.
Qed.

End MockTest.

(** ** What the rows look like *)

Section MoreRows.

Variable rt : runtime.

Implicit Types (st : state) (t field : string) (row : list string) (c : ascii).

Lemma needs_quotes_false t field :
  Py.contains Py.COMMA field = false ->
  Py.contains Py.DQUOTE field = false ->
  (forall c, Py.contains c t = true -> Py.contains c field = false) ->
  Csv.needs_quotes t field = false.
Proof.
  intros Hcomma Hdq Ht. induction field as [|c field IH]; [done|].
  simpl in *.
  apply orb_false_elim in Hcomma as [Hc1 Hcomma].
  apply orb_false_elim in Hdq as [Hc2 Hdq].
  rewrite IH; [|done|done|].
  - rewrite orb_false_r. unfold Csv.special. rewrite Hc1, Hc2. simpl.
    destruct (Py.contains c t) eqn:Hct; [|done].
    specialize (Ht c Hct). by rewrite bool_decide_eq_true_2 in Ht.
  - intros c' Hc'. specialize (Ht c' Hc'). by apply orb_false_elim in Ht as [_ ?].
Qed.

Lemma newline_characters t c :
  t ∈ [Py.nl; Py.cr; Py.crnl] -> Py.contains c t = true -> c = Py.LF ∨ c = Py.CR.
Proof.
  rewrite !elem_of_cons, elem_of_nil.
  intros [->|[->|[->|[]]]]; simpl; rewrite ?orb_false_r;
    intros H; repeat (apply orb_true_iff in H as [H|H]);
    apply bool_decide_eq_true in H; auto.
Qed.

Lemma bare_needs_no_quotes t field :
  t ∈ [Py.nl; Py.cr; Py.crnl] -> bare field ->
  Py.contains Py.COMMA field = false -> Py.contains Py.DQUOTE field = false ->
  Csv.needs_quotes t field = false.
Proof.
  intros Ht (_ & Hlf & Hcr) Hcomma Hdq. apply needs_quotes_false; [done..|].
  intros c Hc. by destruct (newline_characters t c Ht Hc) as [->| ->].
Qed.

Lemma join_nonempty (sep x y : string) (rest : list string) :
  sep ≠ EmptyString -> Py.join sep (x :: y :: rest) ≠ EmptyString.
Proof.
  intros Hsep H.
  change (Py.join sep (x :: y :: rest))
    with (x +:+ sep +:+ Py.join sep (y :: rest)) in H.
  apply append_eq_nil in H as [_ H]. by apply append_eq_nil in H as [? _].
Qed.

(** X18: a row of decoded fields that hold neither a comma nor a double
    quote is written as it is, the fields joined by commas and followed by
    the terminator; the one exception is the row of a single empty field,
    which is written as a pair of double quotes. *)
Theorem X18_plain_rows_are_written_verbatim t row :
  t ∈ [Py.nl; Py.cr; Py.crnl] ->
  Forall bare row ->
  Forall (λ field, Py.contains Py.COMMA field = false
                   ∧ Py.contains Py.DQUOTE field = false) row ->
  (row ≠ [EmptyString] ->
   Csv.row_text t row = Py.join (String Py.COMMA EmptyString) row +:+ t)
  ∧ (row = [EmptyString] ->
     Csv.row_text t row = String Py.DQUOTE (String Py.DQUOTE EmptyString) +:+ t).
Proof.
  intros Ht Hbare Hplain. split; [|by intros ->].
  intros Hne.
  assert (Csv.render_field t <$> row = row) as Hrender.
  { clear Hne. induction Hbare as [|field row Hfield _ IH]; [done|].
    apply Forall_cons in Hplain as [[Hc Hd] Hplain]. rewrite fmap_cons.
    unfold Csv.render_field at 1.
    rewrite (bare_needs_no_quotes t field) by done. by rewrite IH. }
  unfold Csv.row_text, Csv.record. cbv zeta. rewrite Hrender. f_equal.
  destruct row as [|x [|y rest]].
  - done.
  - change (Py.join (String Py.COMMA EmptyString) [x]) with x.
    destruct (decide (x = EmptyString)) as [->|Hx]; [done|].
    rewrite (bool_decide_eq_false_2 (x = EmptyString)) by done.
    by rewrite andb_false_r.
  - rewrite (bool_decide_eq_false_2 (Py.join _ _ = EmptyString))
      by (by apply join_nonempty).
    by rewrite andb_false_r.
Qed.

(** *** No line break inside a record *)

Lemma contains_double_quotes c field :
  c ≠ Py.DQUOTE -> Py.contains c field = false ->
  Py.contains c (Csv.double_quotes field) = false.
Proof.
  intros Hc. induction field as [|c' field IH]; [done|]. simpl. intros H.
  apply orb_false_elim in H as [Hc' H].
  destruct (decide (c' = Py.DQUOTE)) as [->|]; simpl.
  - rewrite IH by done. by rewrite bool_decide_eq_false_2 by congruence.
  - by rewrite Hc', IH.
Qed.

Lemma contains_render_field c t field :
  c ≠ Py.DQUOTE -> Py.contains c field = false ->
  Py.contains c (Csv.render_field t field) = false.
Proof.
  intros Hc Hfield. unfold Csv.render_field, Csv.quoted.
  destruct (Csv.needs_quotes t field); [|done]. simpl.
  rewrite contains_append, contains_double_quotes by done. simpl.
  by rewrite bool_decide_eq_false_2 by congruence.
Qed.

Lemma contains_join c (sep : string) (fields : list string) :
  Py.contains c sep = false ->
  Forall (λ field, Py.contains c field = false) fields ->
  Py.contains c (Py.join sep fields) = false.
Proof.
  intros Hsep. induction 1 as [|x fields Hx Hfields IH]; [done|].
  destruct fields as [|y fields]; [done|].
  change (Py.join sep (x :: y :: fields))
    with (x +:+ sep +:+ Py.join sep (y :: fields)).
  by rewrite !contains_append, Hx, Hsep, IH.
Qed.

Lemma contains_record c t row :
  c ≠ Py.DQUOTE -> c ≠ Py.COMMA ->
  Forall (λ field, Py.contains c field = false) row ->
  Py.contains c (Csv.record t row) = false.
Proof.
  intros Hdq Hcomma Hrow. unfold Csv.record. destruct (_ && _).
  - simpl. by rewrite !bool_decide_eq_false_2 by congruence.
  - apply contains_join.
    + simpl. by rewrite bool_decide_eq_false_2 by congruence.
    + apply Forall_fmap. eapply Forall_impl; [exact Hrow|].
      intros field Hfield. by apply contains_render_field.
Qed.

(** X19: what the decoder returns is written one record per physical
    line: when the column names hold no line break either, every text the
    encoder writes is a record without any carriage return or line feed
    followed by the terminator, so line breaks occur in the output only as
    terminators. *)
Theorem X19_line_breaks_only_terminate_rows st records :
  (parse_fixed_width_file st).2 = inr records ->
  Forall unbroken (column_names (encoding_props st)) ->
  let self := encoding_props st in
  let t := resolve_newline rt (delimited_newline self) in
  Forall (λ text, exists body,
            text = body +:+ t
            ∧ Py.contains Py.CR body = false ∧ Py.contains Py.LF body = false)
    (Csv.row_text t <$> rows_written self records).
Proof.
  intros Hparse Hnames. cbv zeta.
  pose proof (parse_fixed_width_file_bare st records Hparse) as Hbare.
  apply Forall_fmap, Forall_forall. intros row Hrow. simpl.
  exists (Csv.record (resolve_newline rt (delimited_newline (encoding_props st))) row).
  split; [done|].
  assert (Forall unbroken row) as Hun.
  { unfold rows_written in Hrow. apply elem_of_app in Hrow as [Hrow|Hrow].
    - destruct (include_header (encoding_props st)).
      + apply list_elem_of_singleton in Hrow as ->. done.
      + by apply elem_of_nil in Hrow.
    - rewrite Forall_forall in Hbare. specialize (Hbare row Hrow).
      eapply Forall_impl; [exact Hbare|]. by intros field (_ & ? & ?). }
  split; apply contains_record; try done;
    (eapply Forall_impl; [exact Hun|]); by intros field [??].
Qed.

(** X20: encoding again overwrites: after two encodings in a row the
    output file holds the rows of the second one only, exactly as if the
    first had not taken place. *)
Theorem X20_encoding_again_overwrites st (first second : list (list string)) :
  delimited_filename (encoding_props st) ∉ unwritable st ->
  files ((generate_delimited_file rt first;;;
          generate_delimited_file rt second) st).1
  = files (generate_delimited_file rt second st).1.
Proof.
  intros Hw. unfold bind.
  destruct (generate_delimited_file_run rt st first Hw)
    as (st1 & Hrun1 & Hself1 & _ & Hfiles1).
  destruct (generate_delimited_file_run rt st second Hw)
    as (st2 & Hrun2 & _ & _ & Hfiles2).
  rewrite Hrun1, Hrun2. simpl.
  assert (unwritable st1 = unwritable st) as Hunw1.
  { pose proof (generate_delimited_file_unwritable_kept rt st first) as H.
    by rewrite Hrun1 in H. }
  destruct (generate_delimited_file_run rt st1 second)
    as (st3 & Hrun3 & _ & _ & Hfiles3).
  { by rewrite Hself1, Hunw1. }
  rewrite Hrun3. simpl. rewrite Hfiles3, Hfiles2, Hfiles1, Hself1.
  by rewrite insert_insert_eq.
Qed.

End MoreRows.

(** ** The checks of the test helper *)

Section TestHelper.

Variable rt : runtime.

Implicit Types (st : state) (t line rest cur : string) (lines : list string).

Lemma iter_lines_raw_plain cur line rest :
  unbroken line ->
  iter_lines_raw cur (line +:+ rest) = iter_lines_raw (cur +:+ line) rest.
Proof.
  revert cur. induction line as [|c line IH]; intros cur [Hcr Hlf].
  - by rewrite append_nil_l, append_nil_r.
  - simpl in Hcr, Hlf.
    apply orb_false_elim in Hcr as [Hc1 Hcr]. apply orb_false_elim in Hlf as [Hc2 Hlf].
    apply bool_decide_eq_false in Hc1, Hc2.
    rewrite append_cons. simpl.
    destruct (decide (c = Py.LF)); [done|]. destruct (decide (c = Py.CR)); [done|].
    rewrite IH by done. by rewrite append_assoc.
Qed.

(** A text that does not begin with a line feed. *)
Lemma text_of_lines_cr_start lines r :
  Forall unbroken lines -> text_of_lines Py.cr lines ≠ String Py.LF r.
Proof.
  intros Hlines. destruct Hlines as [|line lines [_ Hlf] _]; [done|].
  rewrite text_of_lines_cons. destruct line as [|c line].
  - rewrite append_nil_l. done.
  - rewrite append_cons. simpl in Hlf. apply orb_false_elim in Hlf as [Hc _].
    apply bool_decide_eq_false in Hc. congruence.
Qed.

Lemma iter_lines_raw_terminator cur t rest :
  t ∈ [Py.nl; Py.cr; Py.crnl] ->
  (t = Py.cr -> forall r, rest ≠ String Py.LF r) ->
  iter_lines_raw cur (t +:+ rest) = (cur +:+ t) :: iter_lines_raw EmptyString rest.
Proof.
  intros Ht Hrest. rewrite !elem_of_cons, elem_of_nil in Ht.
  destruct Ht as [->|[->|[->|[]]]].
  - reflexivity.
  - specialize (Hrest eq_refl).
    change (Py.cr +:+ rest) with (String Py.CR rest). simpl.
    destruct rest as [|c rest]; [done|].
    destruct (decide (c = Py.LF)) as [->|]; [by destruct (Hrest rest)|done].
  - reflexivity.
Qed.

(** Read back as it is, a file whose lines are all closed by the same
    newline gives those lines, each with that newline. *)
Lemma iter_lines_raw_lines t lines :
  t ∈ [Py.nl; Py.cr; Py.crnl] -> Forall unbroken lines ->
  iter_lines_raw EmptyString (text_of_lines t lines) = (λ line, line +:+ t) <$> lines.
Proof.
  intros Ht. induction 1 as [|line lines Hline Hlines IH]; [done|].
  rewrite text_of_lines_cons, iter_lines_raw_plain by done.
  rewrite iter_lines_raw_terminator; [by rewrite IH, append_nil_l|done|].
  intros -> r. by apply text_of_lines_cr_start.
Qed.

Lemma slice_suffix line t :
  Py.slice (line +:+ t) (Py.len (line +:+ t) - Py.len t) (Py.len (line +:+ t)) = t.
Proof.
  rewrite len_append.
  replace (Py.len line + Py.len t - Py.len t) with (Py.len line) by lia.
  pose proof (len_nonneg line). pose proof (len_nonneg t).
  rewrite slice_substring; [|lia|lia|rewrite len_append; lia].
  unfold Py.len. rewrite !Nat2Z.id.
  rewrite <- (Nat.add_0_r (String.length line)), substring_append_skip.
  rewrite <- (append_nil_r t) at 2. apply substring_append_head.
Qed.

Lemma slice_empty line : Py.slice line (Py.len line) (Py.len line) = EmptyString.
Proof.
  unfold Py.slice, Py.clamp_index. pose proof (len_nonneg line).
  assert ((Py.len line <? 0) = false) as -> by lia.
  rewrite Z.min_id, Z.sub_diag. by destruct (Py.str_drop _ _).
Qed.

Lemma checks_pass (expected t : string) lines :
  expected = t ∨ expected = EmptyString ->
  forallb (ends_as_expected expected) ((λ line, line +:+ t) <$> lines) = true.
Proof.
  intros Hexp. induction lines as [|line lines IH]; [done|].
  simpl. apply andb_true_intro. split; [|exact IH]. unfold ends_as_expected.
  apply bool_decide_eq_true. destruct Hexp as [->| ->].
  - apply slice_suffix.
  - change (Py.len EmptyString) with 0. rewrite Z.sub_0_r. apply slice_empty.
Qed.

(** X21: the check the test helper makes on the fixed width file passes
    for every data without line breaks and every legal newline setting:
    read back without newline translation, the mock file has one line per
    row, and each ends with what the helper expects (for the empty setting
    the helper expects the empty string, which every line ends with). *)
Theorem X21_mock_file_passes_the_newline_check st newline
    (data : list (list string)) :
  newline ∈ io_newlines ->
  os_linesep rt ∈ [Py.nl; Py.crnl] ->
  fixed_width_filename (encoding_props st) ∉ unwritable st ->
  Forall (Forall unbroken) data ->
  exists text,
    files (write_fixed_width_file rt newline data st).1
      !! fixed_width_filename (encoding_props st) = Some text
    ∧ length (iter_lines_raw EmptyString text) = length data
    ∧ lines_end_as_expected
        (expected_fixed_width_newline (os_linesep rt) newline) text = true.
Proof.
  intros Hnl Hsep Hw Hun.
  destruct (write_fixed_width_file_run rt st newline data Hnl Hw)
    as (st' & Hrun & _ & _ & Hfiles).
  { eapply Forall_impl; [exact Hun|]. intros row Hrow.
    eapply Forall_impl; [exact Hrow|]. by intros field [??]. }
  rewrite Hrun. simpl. rewrite Hfiles, lookup_insert_eq.
  eexists. split; [reflexivity|].
  unfold lines_end_as_expected. rewrite iter_lines_raw_lines.
  - split; [by rewrite !length_fmap|]. apply checks_pass.
    unfold io_newlines in Hnl. rewrite !elem_of_cons, elem_of_nil in Hnl.
    destruct Hnl as [->|[->|[->|[->|[->|[]]]]]]; simpl; auto.
  - by apply write_newline_is_a_newline.
  - apply Forall_fmap. eapply Forall_impl; [exact Hun|].
    intros row Hrow. by apply unbroken_concat_texts.
Qed.

Lemma concat_row_texts t (rows : list (list string)) :
  concat_texts (Csv.row_text t <$> rows) = text_of_lines t (Csv.record t <$> rows).
Proof.
  unfold text_of_lines. induction rows as [|row rows IH]; [done|].
  rewrite !fmap_cons, !concat_texts_cons. by rewrite IH.
Qed.

(** X22: so does the check on the delimited file: when neither the data
    nor the column names hold a line break, the output read back without
    newline translation has one line per row written, and each ends with
    the terminator the helper expects. *)
Theorem X22_output_passes_the_newline_check st (delimited_data : list (list string)) :
  delimited_newline (encoding_props st) ∈ legal_newlines ->
  os_linesep rt ∈ [Py.nl; Py.crnl] ->
  delimited_filename (encoding_props st) ∉ unwritable st ->
  Forall (Forall unbroken) (rows_written (encoding_props st) delimited_data) ->
  exists text,
    files (generate_delimited_file rt delimited_data st).1
      !! delimited_filename (encoding_props st) = Some text
    ∧ length (iter_lines_raw EmptyString text)
      = length (rows_written (encoding_props st) delimited_data)
    ∧ lines_end_as_expected
        (expected_delimited_newline (os_linesep rt)
           (delimited_newline (encoding_props st))) text = true.
Proof.
  intros Hd Hsep Hw Hun.
  destruct (generate_delimited_file_run rt st delimited_data Hw)
    as (st' & Hrun & _ & _ & Hfiles).
  rewrite Hrun. simpl. rewrite Hfiles, lookup_insert_eq.
  eexists. split; [reflexivity|].
  set (d := delimited_newline (encoding_props st)) in *.
  assert (resolve_newline rt d ∈ [Py.nl; Py.cr; Py.crnl]
          ∧ expected_delimited_newline (os_linesep rt) d = resolve_newline rt d)
    as [Ht Hexp].
  { unfold legal_newlines in Hd. rewrite !elem_of_cons, elem_of_nil in Hd.
    rewrite !elem_of_cons, elem_of_nil in Hsep. rewrite !elem_of_cons.
    destruct Hd as [->|[->|[->|[->|[->|[]]]]]];
      (split; [simpl; destruct Hsep as [Hs|[Hs|[]]]; rewrite ?Hs; auto
              | reflexivity]). }
  unfold lines_end_as_expected. rewrite concat_row_texts, iter_lines_raw_lines.
  - split; [by rewrite !length_fmap|]. apply checks_pass. by left.
  - done.
  - apply Forall_fmap. eapply Forall_impl; [exact Hun|]. intros row Hrow. simpl.
    split; apply contains_record; try done;
      (eapply Forall_impl; [exact Hrow|]); by intros field [??].
Qed.

End TestHelper.

(** * The further properties on concrete inputs *)

Lemma none_is_legal : None ∈ legal_newlines.
Proof. unfold legal_newlines. rewrite elem_of_cons. by left. Defined.

Lemma cr_is_an_io_newline : Some Py.cr ∈ io_newlines.
Proof. unfold io_newlines. rewrite !elem_of_cons. auto. Defined.


Lemma cr_is_a_newline : Py.cr ∈ [Py.nl; Py.cr; Py.crnl].
Proof. rewrite !elem_of_cons. auto. Defined.

Lemma posix_linesep : os_linesep posix ∈ [Py.nl; Py.crnl].
Proof. rewrite !elem_of_cons. auto. Defined.

Lemma nothing_unwritable (input : string) :
  fixed_width_filename (encoding_props (configured None input))
  ∉ unwritable (configured None input).
Proof. vm_compute. discriminate. Defined.

Lemma two_lines_unbroken : Forall unbroken two_lines.
Proof. repeat constructor. Defined.

Lemma two_rows_unbroken : Forall (Forall unbroken) two_rows.
Proof. repeat constructor. Defined.

Lemma wide_rows_unbroken : Forall (Forall unbroken) wide_rows.
Proof. repeat constructor. Defined.

Lemma X1_witness :
  (new_EncodingProperties posix "spec.json" "fixed_width.txt" "delimited.txt"
     None (disk spec_AB EmptyString)).2
  = inr (props_AB None).
Proof.
  apply (proj2 (X1_construction_succeeds_iff posix (disk spec_AB EmptyString)
                  "spec.json" "fixed_width.txt" "delimited.txt" None
                  (props_AB None))).
  exists (spec_text spec_AB), spec_AB, [3; 2].
  split; [vm_compute; reflexivity|]. split; [vm_compute; reflexivity|].
  split; [exact none_is_legal|]. repeat split; vm_compute; reflexivity.
Defined.

Lemma X2_witness :
  (EncodingProperties_init posix_both_wrong "spec.json" "fixed_width.txt"
     "delimited.txt" None (disk spec_both_wrong EmptyString)).2
  = inl (UnsupportedSourceEncodingError "latin-1").
Proof.
  destruct (X2_first_failing_check_decides posix_both_wrong
              (disk spec_both_wrong EmptyString) "spec.json" "fixed_width.txt"
              "delimited.txt" None) as (_ & _ & H).
  destruct (H (spec_text spec_both_wrong) spec_both_wrong) as (_ & H2).
  { vm_compute. reflexivity. }
  { vm_compute. reflexivity. }
  destruct (H2 none_is_legal) as (_ & H3).
  destruct (H3 [3; 2]) as (_ & H4); [vm_compute; reflexivity|].
  destruct (H4 eq_refl) as (H5 & _).
  apply H5. vm_compute. discriminate.
Defined.

Lemma X3_witness :
  (parse_fixed_width_file (configured None (text_of_lines Py.crnl two_lines))).2
  = inr two_records.
Proof.
  destruct (X3_one_record_per_line
              (configured None (text_of_lines Py.crnl two_lines))
              (text_of_lines Py.crnl two_lines) two_records)
    as [Hiff _]; [vm_compute; reflexivity|].
  apply Hiff.
  replace (iter_lines EmptyString
             (universal_newlines false (text_of_lines Py.crnl two_lines)))
    with ["abc1 " +:+ Py.nl; "x  2 " +:+ Py.nl] by (vm_compute; reflexivity).
  repeat constructor; vm_compute; reflexivity.
Defined.

Lemma X4_witness : Forall (Forall bare) two_records.
Proof.
  apply (X4_decoded_fields_are_bare
           (configured None (text_of_lines Py.nl two_lines))).
  vm_compute. reflexivity.
Defined.

Lemma X5_witness :
  fits ["x"; "2"] [3; 2]
  ∧ parse_line [3; 2] (fixed_width_line JRight ["x"; "2"] [3; 2]) = inr ["x"; "2"].
Proof.
  apply (X5_decoded_record_lays_out_again [3; 2] "x  2 ").
  - repeat constructor; lia.
  - vm_compute. reflexivity.
Defined.

Lemma X6_witness :
  (parse_fixed_width_file (configured None (text_of_lines Py.cr two_lines))).2
  = parse_lines [3; 2] two_lines [].
Proof.
  apply (X6_newline_convention_is_irrelevant
           (configured None (text_of_lines Py.cr two_lines)) Py.cr two_lines).
  - exact cr_is_a_newline.
  - exact two_lines_unbroken.
  - vm_compute. reflexivity.
Defined.

Lemma X7_witness :
  (parse_fixed_width_file
     (configured None (text_of_lines Py.cr ["abc1 "] +:+ "x  2 "))).2
  = parse_lines [3; 2] two_lines [].
Proof.
  apply (X7_final_newline_is_optional
           (configured None (text_of_lines Py.cr ["abc1 "] +:+ "x  2 "))
           Py.cr ["abc1 "] "x  2 ").
  - exact cr_is_a_newline.
  - repeat constructor.
  - repeat constructor.
  - discriminate.
  - vm_compute. reflexivity.
Defined.

Lemma X8_witness :
  files (generate_delimited_file posix two_records
           (configured None EmptyString)).1 !! "spec.json"
  = files (configured None EmptyString) !! "spec.json".
Proof.
  destruct (X8_only_the_output_file_is_written posix
              (configured None EmptyString) two_records) as (Hother & _).
  apply Hother. discriminate.
Defined.

Lemma X9_witness :
  files (run_pipeline posix "spec.json" "fixed_width.txt" "delimited.txt"
           (Some Py.nl) (disk spec_AB ("abc 1 " +:+ Py.nl))).1
  = files (disk spec_AB ("abc 1 " +:+ Py.nl)).
Proof.
  apply (X9_failed_run_changes_no_file posix _ _ _ _ _ RecordWidthError).
  vm_compute. reflexivity.
Defined.

Lemma X10_witness :
  let outcome :=
    run_pipeline windows "spec.json" "fixed_width.txt" "delimited.txt" None
      (disk spec_AB (text_of_lines Py.nl two_lines)) in
  outcome.2 = inr tt
  ∧ files outcome.1 !! "delimited.txt"
    = Some ("A,B" +:+ Py.crnl +:+ "abc,1" +:+ Py.crnl +:+ "x,2" +:+ Py.crnl).
Proof.
  cbv zeta.
  destruct (X10_run_writes_one_row_per_line windows
              (disk spec_AB (text_of_lines Py.nl two_lines))
              "spec.json" "fixed_width.txt" "delimited.txt" None
              (EncodingProperties_init windows "spec.json" "fixed_width.txt"
                 "delimited.txt" None
                 (disk spec_AB (text_of_lines Py.nl two_lines))).1
              (text_of_lines Py.nl two_lines) two_records)
    as (Hok & _ & Hfiles).
  - vm_compute. reflexivity.
  - vm_compute. reflexivity.
  - replace (iter_lines EmptyString
               (universal_newlines false (text_of_lines Py.nl two_lines)))
      with ["abc1 " +:+ Py.nl; "x  2 " +:+ Py.nl] by (vm_compute; reflexivity).
    repeat constructor; vm_compute; reflexivity.
  - vm_compute. discriminate.
  - split; [exact Hok|]. rewrite Hfiles. vm_compute. reflexivity.
Defined.

Lemma X11_witness :
  files (write_fixed_width_file posix (Some Py.cr) two_rows
           (configured None EmptyString)).1 !! "fixed_width.txt"
  = Some ("ab 1 " +:+ Py.cr +:+ "c  dd" +:+ Py.cr).
Proof.
  destruct (X11_mock_file_has_one_terminated_line_per_row posix
              (configured None EmptyString) (Some Py.cr) two_rows)
    as (_ & _ & Hfiles).
  - exact cr_is_an_io_newline.
  - exact (nothing_unwritable EmptyString).
  - repeat constructor.
  - rewrite Hfiles. vm_compute. reflexivity.
Defined.


Lemma X13_witness :
  ((write_fixed_width_file posix (Some Py.cr) two_rows;;; parse_fixed_width_file)
     (configured None EmptyString)).2
  = inr [["ab"; "1"]; ["c"; "dd"]].
Proof.
  apply (X13_mock_file_decodes_to_the_data posix (configured None EmptyString)
           (Some Py.cr) two_rows).
  - exact cr_is_an_io_newline.
  - exact posix_linesep.
  - exact (nothing_unwritable EmptyString).
  - repeat constructor.
  - exact two_rows_unbroken.
Defined.

Lemma X14_witness :
  ((write_fixed_width_file posix (Some Py.cr) wide_rows;;; parse_fixed_width_file)
     (configured None EmptyString)).2
  = inl RecordWidthError.
Proof.
  apply (X14_other_total_width_is_rejected posix (configured None EmptyString)
           (Some Py.cr) [10; 2] wide_rows).
  - exact cr_is_an_io_newline.
  - exact posix_linesep.
  - exact (nothing_unwritable EmptyString).
  - repeat constructor.
  - exact wide_rows_unbroken.
  - discriminate.
  - vm_compute. discriminate.
Defined.

Lemma X15_witness :
  exists data,
    (generate_fixed_width_data sample_draws (props_AB None) 0%nat).2 = inr data
    ∧ length data = 10%nat
    ∧ laid_out [3; 2] data.
Proof.
  destruct (X15_mock_data_shape sample_draws (props_AB None) 0%nat)
    as (data & Hrun & Hlen & _ & Hlaid & _).
  - repeat constructor; lia.
  - exists data. split; [exact Hrun|]. split; [exact Hlen | exact Hlaid].
Defined.

Lemma X16_witness :
  (generate_fixed_width_data sample_draws props_nonpositive 0%nat).2
  = inl (EmptyRange 1 0).
Proof.
  apply (X16_mock_data_needs_positive_widths sample_draws props_nonpositive
           0%nat [] 0 [-3]).
  - reflexivity.
  - constructor.
  - lia.
Defined.

Lemma X17_witness :
  exists data,
    (generate_fixed_width_data sample_draws
       (encoding_props (configured None EmptyString)) 0%nat).2 = inr data
    ∧ ((write_fixed_width_file posix None data;;; parse_fixed_width_file)
         (configured None EmptyString)).2
      = inr (without_spaces data).
Proof.
  destruct (X17_generated_data_round_trips posix sample_draws
              (configured None EmptyString) None 0%nat)
    as (data & Hgen & Hround & _).
  - repeat constructor; lia.
  - unfold io_newlines. rewrite elem_of_cons. by left.
  - exact posix_linesep.
  - exact (nothing_unwritable EmptyString).
  - exists data. split; [exact Hgen | exact Hround].
Defined.

Lemma X18_witness :
  Csv.row_text Py.cr ["abc"; ""; "1"] = "abc,,1" +:+ Py.cr.
Proof.
  destruct (X18_plain_rows_are_written_verbatim Py.cr ["abc"; ""; "1"])
    as (Hplain & _).
  - exact cr_is_a_newline.
  - repeat constructor.
  - repeat constructor.
  - apply Hplain. discriminate.
Defined.

Lemma X19_witness :
  Forall (λ text, exists body,
            text = body +:+ Py.nl
            ∧ Py.contains Py.CR body = false ∧ Py.contains Py.LF body = false)
    (Csv.row_text Py.nl <$> [["A"; "B"]; ["abc"; "1"]; ["x"; "2"]]).
Proof.
  apply (X19_line_breaks_only_terminate_rows posix
           (configured (Some Py.nl) (text_of_lines Py.crnl two_lines))
           two_records).
  - vm_compute. reflexivity.
  - repeat constructor.
Defined.

Lemma X20_witness :
  files ((generate_delimited_file posix two_records;;;
          generate_delimited_file posix [["x"; "2"]])
           (configured None EmptyString)).1 !! "delimited.txt"
  = Some ("A,B" +:+ Py.nl +:+ "x,2" +:+ Py.nl).
Proof.
  rewrite (X20_encoding_again_overwrites posix (configured None EmptyString)
             two_records [["x"; "2"]]).
  - vm_compute. reflexivity.
  - vm_compute. discriminate.
Defined.

Lemma X21_witness :
  exists text,
    files (write_fixed_width_file posix (Some Py.cr) two_rows
             (configured None EmptyString)).1 !! "fixed_width.txt" = Some text
    ∧ length (iter_lines_raw EmptyString text) = 2%nat
    ∧ lines_end_as_expected Py.cr text = true.
Proof.
  apply (X21_mock_file_passes_the_newline_check posix
           (configured None EmptyString) (Some Py.cr) two_rows).
  - exact cr_is_an_io_newline.
  - exact posix_linesep.
  - exact (nothing_unwritable EmptyString).
  - exact two_rows_unbroken.
Defined.

Lemma X22_witness :
  exists text,
    files (generate_delimited_file windows two_records
             (configured None EmptyString)).1 !! "delimited.txt" = Some text
    ∧ length (iter_lines_raw EmptyString text) = 3%nat
    ∧ lines_end_as_expected Py.crnl text = true.
Proof.
  apply (X22_output_passes_the_newline_check windows
           (configured None EmptyString) two_records).
  - exact none_is_legal.
  - rewrite !elem_of_cons. auto.
  - vm_compute. discriminate.
  - repeat constructor.
Defined.
